(** * Sample store of the milk-quality spectroscopy scripts

    A shallow embedding of [script.py] (ingestion of AS7341 CSV rows into
    the HDF5 container, interactive metadata, inspection) and of
    [plotting.py] (listing and plotting of stored samples), followed by
    the properties of the sample store that hold of this code.

    Modelling conventions.
    - The HDF5 container is a file holding an optional root group
      [samples]; that group maps link names to sample groups, and a sample
      group holds named datasets and string attributes.  A path
      ["/samples/" ++ t] or ["samples/" ++ t] addresses the child [t] of
      the root group: link names are taken as atomic.  That is what h5py
      does when [t] is a link name (not empty, not a dot, no slash); the
      statements about the members of [samples] are made for timestamps
      that are link names.
    - Python strings are ASCII strings.  A CSV cell is known by what
      [str] prints for it and by whether (and to what) the cast to float
      succeeds.  Floating-point values are rationals; no arithmetic is
      done on them, and the cells pandas reads as missing values, whose
      cast gives NaN, are left out.
    - Effects (the files on disk, the console) are threaded through a
      state-and-exception monad; a Python exception that nothing catches
      is the result [Raise].
    - Git, the file system outside the container and the CSV files, and
      the terminal are not part of the state.  [collect_csv_files] is
      taken over what [os.path] and [glob] answer, [push_updated_hdf5]
      is known by the calls it makes, [select_samples_curses] by the
      keys typed and the lines it draws, and the legend of the figure by
      what a click changes.  [pull_latest_hdf5] and the two [__main__]
      blocks are not embedded. *)

From Stdlib Require Import Ascii String QArith.
From stdpp Require Import base option list gmap strings numbers.
From stdpp Require pretty.

Set Default Proof Using "Type".
Local Open Scope string_scope.
Local Open Scope list_scope.

(** ** Python strings *)

Module PyStr.

(** [str.isspace] on ASCII: TAB, LF, VT, FF, CR, FS, GS, RS, US, SPACE. *)
Definition is_space (a : ascii) : bool :=
  let n := nat_of_ascii a in
  ((9 <=? n)%nat && (n <=? 13)%nat) || ((28 <=? n)%nat && (n <=? 32)%nat).

Fixpoint lstrip_chars (l : list ascii) : list ascii :=
  match l with
  | [] => []
  | a :: l' => if is_space a then lstrip_chars l' else l
  end.

(** [s.strip()] *)
Definition strip (s : string) : string :=
  string_of_list_ascii
    (rev (lstrip_chars (rev (lstrip_chars (list_ascii_of_string s))))).

Definition lower_char (a : ascii) : ascii :=
  let n := nat_of_ascii a in
  if ((65 <=? n)%nat && (n <=? 90)%nat) then ascii_of_nat (n + 32) else a.

(** [s.lower()] *)
Fixpoint lower (s : string) : string :=
  match s with
  | EmptyString => EmptyString
  | String a s' => String (lower_char a) (lower s')
  end.

(** [s.removeprefix(p)], with [None] when [p] is not a prefix of [s]. *)
Fixpoint strip_prefix (p s : string) : option string :=
  match p, s with
  | EmptyString, _ => Some s
  | String a p', String b s' =>
      if Ascii.eqb a b then strip_prefix p' s' else None
  | String _ _, EmptyString => None
  end.

End PyStr.

(** ** Data model *)

(** A numeric HDF5 dataset: [int64] or [float64] values. *)
Inductive Dataset :=
| IntData (l : list Z)
| FloatData (l : list Q).

Definition dlen (d : Dataset) : nat :=
  match d with
  | IntData l => length l
  | FloatData l => length l
  end.

(** First [n] elements: the slice [d[:n]]. *)
Definition dtake (n : nat) (d : Dataset) : Dataset :=
  match d with
  | IntData l => IntData (take n l)
  | FloatData l => FloatData (take n l)
  end.

(** A sample group: its datasets and its attributes, by name. *)
Record Group := mkGroup {
  datasets : gmap string Dataset;
  attrs : gmap string string
}.

Definition empty_group : Group := mkGroup ∅ ∅.

(** The container: [samples_grp] is [None] while the root group
    [samples] does not exist. *)
Record H5File := mkH5 {
  samples_grp : option (gmap string Group)
}.

(** A value read from a CSV cell. *)
Record Cell := mkCell {
  py_str : string;          (* str(v) *)
  as_float : option Q       (* the number the cast yields, when it succeeds *)
}.

(** A data-frame row (a pandas Series indexed by column label) and a
    data frame as the sequence of rows [iterrows] yields. *)
Definition DataFrame : Type := list (gmap string Cell).

(** The world the scripts act on: HDF5 files and CSV files by path, the
    lines still to be typed on the console, and what was printed so
    far (oldest first). *)
Record World := mkWorld {
  h5 : gmap string H5File;
  csv : gmap string DataFrame;
  stdin : list string;
  stdout : list string
}.

Definition set_h5 (f : gmap string H5File → gmap string H5File) (w : World) : World :=
  mkWorld (f (h5 w)) (csv w) (stdin w) (stdout w).

Definition set_stdin (l : list string) (w : World) : World :=
  mkWorld (h5 w) (csv w) l (stdout w).

Definition put_stdout (s : string) (w : World) : World :=
  mkWorld (h5 w) (csv w) (stdin w) (stdout w ++ [s]).

(** The sample groups of the container at [path]; empty when the file
    or its [samples] group is absent. *)
Definition samples_of (w : World) (path : string) : gmap string Group :=
  match h5 w !! path with
  | Some f => default ∅ (samples_grp f)
  | None => ∅
  end.

(** ** Exceptions and the monad of effects *)

Inductive exn :=
| KeyError (k : string)
| ValueError (msg : string)
| EOFError
| FileNotFoundError (path : string).

Inductive Result (A : Type) :=
| Ok (a : A)
| Raise (e : exn).
Arguments Ok {A} a.
Arguments Raise {A} e.

Definition M (A : Type) : Type := World → World * Result A.

#[global] Instance M_ret : MRet M := λ A a w, (w, Ok a).
#[global] Instance M_bind : MBind M := λ A B f m w,
  match m w with
  | (w', Ok a) => f a w'
  | (w', Raise e) => (w', Raise e)
  end.

#[global] Instance M_fmap : FMap M := λ A B f m w,
  match m w with
  | (w', Ok a) => (w', Ok (f a))
  | (w', Raise e) => (w', Raise e)
  end.

Definition raise {A} (e : exn) : M A := λ w, (w, Raise e).

(** [print(s)] *)
Definition print (s : string) : M unit := λ w, (put_stdout s w, Ok tt).

(** [input(prompt)]: shows the prompt, then reads one line; end of
    input raises [EOFError]. *)
Definition input (prompt : string) : M string := λ w,
  let w := put_stdout prompt w in
  match stdin w with
  | [] => (w, Raise EOFError)
  | l :: rest => (set_stdin rest w, Ok l)
  end.

(** The lines waiting on the console (read, not consumed). *)
Definition pending_input : M (list string) := λ w, (w, Ok (stdin w)).

(** [for x in l: body(x, acc)] with the loop-carried variables [acc]. *)
Fixpoint for_each {A S} (l : list A) (body : A → S → M S) (acc : S) : M S :=
  match l with
  | [] => mret acc
  | x :: l' => acc' ← body x acc; for_each l' body acc'
  end.

(** Evaluation of a list display [[e1, ..., en]], left to right. *)
Fixpoint eval_list {A B} (f : A → M B) (l : list A) : M (list B) :=
  match l with
  | [] => mret []
  | x :: l' => y ← f x; ys ← eval_list f l'; mret (y :: ys)
  end.

(** ** The h5py operations the scripts use *)

(** What a name handed to h5py addresses in the container, when what
    follows [samples/] is a link name (see [link_name] below).  h5py
    reads a name as a path: a timestamp with a slash in it would lead
    through nested groups, and an empty one or a dot would stay in
    [samples] itself.  The store has no nested groups, and every
    statement below that speaks of the members of [samples] takes the
    timestamps to be link names. *)
Inductive h5path :=
| RootSamples                (* "samples", "/samples" *)
| Sample (k : string).       (* "/samples/k", "samples/k" *)

Definition resolve (name : string) : option h5path :=
  if bool_decide (name = "samples") || bool_decide (name = "/samples")
  then Some RootSamples
  else match PyStr.strip_prefix "/samples/" name with
       | Some k => Some (Sample k)
       | None => Sample <$> PyStr.strip_prefix "samples/" name
       end.

(** An open group: the file it lives in and its absolute name
    ([group.name] in h5py). *)
Record GroupRef := mkRef {
  gfile : string;
  gname : string
}.

Definition set_samples (file : string) (m : gmap string Group) : World → World :=
  set_h5 (<[file := mkH5 (Some m)]>).

Definition get_group (g : GroupRef) (w : World) : option Group :=
  match resolve (gname g) with
  | Some (Sample k) => samples_of w (gfile g) !! k
  | _ => None
  end.

Definition put_group (g : GroupRef) (grp : Group) (w : World) : World :=
  match resolve (gname g) with
  | Some (Sample k) =>
      set_samples (gfile g) (<[k := grp]> (samples_of w (gfile g))) w
  | _ => w
  end.

(** [os.path.exists(path)] for a container path *)
Definition path_exists (path : string) : M bool := λ w,
  (w, Ok (bool_decide (is_Some (h5 w !! path)))).

(** [h5py.File(path, "a")]: the file is created when it does not exist. *)
Definition h5_open_append (path : string) : M unit := λ w,
  match h5 w !! path with
  | Some _ => (w, Ok tt)
  | None => (set_h5 (<[path := mkH5 None]>) w, Ok tt)
  end.

(** [h5py.File(path, "r")] *)
Definition h5_open_read (path : string) : M unit := λ w,
  match h5 w !! path with
  | Some _ => (w, Ok tt)
  | None => (w, Raise (FileNotFoundError path))
  end.

(** [name in file] *)
Definition h5_contains (file name : string) : M bool := λ w,
  (w, Ok match resolve name, h5 w !! file ≫= samples_grp with
         | Some RootSamples, Some _ => true
         | Some (Sample k), Some m => bool_decide (is_Some (m !! k))
         | _, _ => false
         end).

(** [file.create_group(name)]; an existing name is an error. *)
Definition h5_create_group (file name : string) : M GroupRef := λ w,
  match resolve name with
  | Some RootSamples =>
      match h5 w !! file ≫= samples_grp with
      | Some _ => (w, Raise (ValueError "name already exists"))
      | None => (set_samples file ∅ w, Ok (mkRef file "/samples"))
      end
  | Some (Sample k) =>
      match samples_of w file !! k with
      | Some _ => (w, Raise (ValueError "name already exists"))
      | None =>
          (set_samples file (<[k := empty_group]> (samples_of w file)) w,
           Ok (mkRef file ("/samples/" +:+ k)))
      end
  | None => (w, Raise (ValueError "invalid location"))
  end.

(** [file[name]] for a group *)
Definition h5_open_group (file name : string) : M GroupRef := λ w,
  match get_group (mkRef file name) w with
  | Some _ => (w, Ok (mkRef file name))
  | None => (w, Raise (KeyError name))
  end.

(** [group.create_dataset(name, data=data)] *)
Definition create_dataset (g : GroupRef) (name : string) (data : Dataset) : M unit := λ w,
  match get_group g w with
  | None => (w, Raise (KeyError (gname g)))
  | Some grp =>
      match datasets grp !! name with
      | Some _ => (w, Raise (ValueError "name already exists"))
      | None =>
          (put_group g (mkGroup (<[name := data]> (datasets grp)) (attrs grp)) w, Ok tt)
      end
  end.

(** [group.attrs[name] = value] *)
Definition attrs_set (g : GroupRef) (name value : string) : M unit := λ w,
  match get_group g w with
  | None => (w, Raise (KeyError (gname g)))
  | Some grp =>
      (put_group g (mkGroup (datasets grp) (<[name := value]> (attrs grp))) w, Ok tt)
  end.

(** [name in group] *)
Definition group_contains (g : GroupRef) (name : string) : M bool := λ w,
  (w, Ok match get_group g w with
         | Some grp => bool_decide (is_Some (datasets grp !! name))
         | None => false
         end).

(** [group[name][:]] *)
Definition read_dataset (g : GroupRef) (name : string) : M Dataset := λ w,
  match get_group g w ≫= λ grp, datasets grp !! name with
  | Some d => (w, Ok d)
  | None => (w, Raise (KeyError name))
  end.

(** [{key: group.attrs[key] for key in group.attrs}] *)
Definition read_attrs (g : GroupRef) : M (gmap string string) := λ w,
  match get_group g w with
  | Some grp => (w, Ok (attrs grp))
  | None => (w, Raise (KeyError (gname g)))
  end.

(** [list(file["samples"].keys())].  h5py enumerates the members by
    name; here the order is that of the map, and only which keys are
    listed is meant. *)
Definition samples_keys (file : string) : M (list string) := λ w,
  match h5 w !! file ≫= samples_grp with
  | Some m => (w, Ok (map_to_list m).*1)
  | None => (w, Raise (KeyError "samples"))
  end.

(** ** pandas *)

(** [pd.read_csv(path)] followed by [iterrows()] *)
Definition read_csv (path : string) : M DataFrame := λ w,
  match csv w !! path with
  | Some df => (w, Ok df)
  | None => (w, Raise (FileNotFoundError path))
  end.

(** [row[col]] *)
Definition row_get (row : gmap string Cell) (col : string) : M Cell :=
  match row !! col with
  | Some c => mret c
  | None => raise (KeyError col)
  end.

(** The first of [cells] that does not cast to float. *)
Fixpoint not_a_float (cells : list Cell) : option Cell :=
  match cells with
  | [] => None
  | c :: cells' => if as_float c is Some _ then not_a_float cells' else Some c
  end.

(** [np.array(cells).astype(float)].  The cast stops at the first value
    that is no number, and the message of its [ValueError] names that
    value (how the value is quoted there depends on the numpy at
    hand). *)
Definition astype_float (cells : list Cell) : M (list Q) :=
  match mapM as_float cells with
  | Some l => mret l
  | None =>
      raise (ValueError ("could not convert string to float: '"
                         +:+ from_option py_str "" (not_a_float cells) +:+ "'"))
  end.

(** ** script.py *)

Definition AS7341_WAVELENGTHS : list Z :=
  [415; 445; 480; 515; 555; 590; 630; 680; 850; 940]%Z.

Definition AS7341_COLUMNS : list string :=
  ["415nm_F1"; "445nm_F2"; "480nm_F3"; "515nm_F4"; "555nm_F5";
   "590nm_F6"; "630nm_F7"; "680nm_F8"; "CLEAR"; "NIR"].

(** The [while True] loop of [add_metadata].  Every turn reads at least
    one line, so the lines still on the console when the loop starts
    bound the number of turns: [turns] is that list, and the loop ends
    (by an empty key or by the end of the input) before its turns do,
    see [metadata_loop_turns]. *)
Fixpoint metadata_loop (sample_group : GroupRef) (turns : list string) : M unit :=
  key ← PyStr.strip <$> input "Enter metadata key (or press Enter to stop): ";
  if bool_decide (key = "") then mret tt
  else
    value ← PyStr.strip <$> input ("Enter value for " +:+ key +:+ ": ");
    attrs_set sample_group key value;;
    print ("Added metadata: " +:+ key +:+ " = " +:+ value);;
    match turns with
    | [] => mret tt
    | _ :: turns' => metadata_loop sample_group turns'
    end.

(** [add_metadata(sample_group)] *)
Definition add_metadata (sample_group : GroupRef) : M bool :=
  add_meta ← (λ s, PyStr.lower (PyStr.strip s)) <$>
    input ("Do you want to add metadata for " +:+ gname sample_group +:+ "? (y/n): ");
  if bool_decide (add_meta = "y") then
    turns ← pending_input;
    metadata_loop sample_group turns;;
    mret true
  else mret false.

(** The body of [for _, row in df.iterrows()], on the loop-carried
    [(added_samples, metadata_updates)]. *)
Definition ingest_row (hdf5_file : string) (row : gmap string Cell)
    (acc : list string * bool) : M (list string * bool) :=
  let '(added_samples, metadata_updates) := acc in
  time ← row_get row "time";
  let timestamp := py_str time in
  let group_name := "/samples/" +:+ timestamp in
  dup ← h5_contains hdf5_file group_name;
  if dup : bool then
    print ("Skipping duplicate sample: " +:+ timestamp);;
    mret (added_samples, metadata_updates)
  else
    cells ← eval_list (row_get row) AS7341_COLUMNS;
    intensities ← astype_float cells;
    sample_group ← h5_create_group hdf5_file group_name;
    create_dataset sample_group "Wavelengths" (IntData AS7341_WAVELENGTHS);;
    create_dataset sample_group "Intensities" (FloatData intensities);;
    attrs_set sample_group "Timestamp" timestamp;;
    updated ← add_metadata sample_group;
    let metadata_updates := metadata_updates || updated in
    let added_samples := added_samples ++ [timestamp] in
    print ("Added AS7341 sample: " +:+ timestamp);;
    mret (added_samples, metadata_updates).

(** The body of [for csv_file in csv_files]. *)
Definition ingest_file (hdf5_file data_type csv_file : string)
    (acc : list string * bool) : M (list string * bool) :=
  print ("Processing: " +:+ csv_file);;
  if bool_decide (data_type = "3") then
    df ← read_csv csv_file;
    for_each df (ingest_row hdf5_file) acc
  else mret acc.

(** [add_samples_from_csv(csv_files, hdf5_file, data_type)].  The file
    is closed when the [with] block is left, also by an exception, so
    what was written up to that point is on disk. *)
Definition add_samples_from_csv (csv_files : list string)
    (hdf5_file data_type : string) : M (list string * bool) :=
  h5_open_append hdf5_file;;
  has ← h5_contains hdf5_file "samples";
  (if has : bool then mret tt else _ ← h5_create_group hdf5_file "samples"; mret tt);;
  for_each csv_files (ingest_file hdf5_file data_type) ([], false).

(** [view_samples(hdf5_file)].  How numpy prints an array and how Python
    prints a dict is left open. *)
Section ViewSamples.
Variable repr_array : Dataset → string.
Variable repr_dict : gmap string string → string.

Definition nl : string := String (ascii_of_nat 10) EmptyString.

(** [if name in group: print(f"{name}: {group[name][:][:5]} ...")] *)
Definition show_dataset (group : GroupRef) (name : string) : M unit :=
  has ← group_contains group name;
  if has : bool then
    d ← read_dataset group name;
    print (name +:+ ": " +:+ repr_array (dtake 5 d) +:+ " ...")
  else mret tt.

(** The body of the second [for sample in hdf5_file["samples"]]. *)
Definition view_sample (hdf5_file sample : string) (_ : unit) : M unit :=
  group ← h5_open_group hdf5_file ("samples/" +:+ sample);
  metadata ← read_attrs group;
  match metadata !! "Timestamp" with
  | None => raise (KeyError "Timestamp")
  | Some ts =>
      print (nl +:+ "Timestamp: " +:+ ts);;
      show_dataset group "Wavelengths";;
      has_a ← group_contains group "Absorption";
      has_t ← group_contains group "Transmission";
      (if has_a && has_t then
         absorption ← read_dataset group "Absorption";
         transmission ← read_dataset group "Transmission";
         print ("Absorption: " +:+ repr_array (dtake 5 absorption) +:+ " ...");;
         print ("Transmission: " +:+ repr_array (dtake 5 transmission) +:+ " ...")
       else mret tt);;
      show_dataset group "Intensities";;
      print ("Metadata: " +:+ repr_dict metadata)
  end.

Definition view_samples (hdf5_file : string) : M unit :=
  ex ← path_exists hdf5_file;
  if negb ex then print "No database found."
  else
    h5_open_read hdf5_file;;
    has ← h5_contains hdf5_file "samples";
    if negb has then print "No samples found in HDF5 file."
    else
      print (nl +:+ "Available Timestamps:");;
      keys ← samples_keys hdf5_file;
      for_each keys (λ sample _, print (" - " +:+ sample)) tt;;
      keys ← samples_keys hdf5_file;
      for_each keys (view_sample hdf5_file) tt.
End ViewSamples.

(** ** plotting.py *)

(** [list_samples(hdf5_file)] *)
Definition list_samples (hdf5_file : string) : M (list string) :=
  ex ← path_exists hdf5_file;
  if negb ex then
    print "No database found.";;
    mret []
  else
    h5_open_read hdf5_file;;
    has ← h5_contains hdf5_file "samples";
    if negb has then
      print "No samples found in HDF5 file.";;
      mret []
    else samples_keys hdf5_file.

(** A plotted series: [ax.plot(x, y, label=label)]. *)
Record Line2D := mkLine {
  label : string;
  xdata : Dataset;
  ydata : Dataset
}.

(** [ax.plot(x, y, label=label)]; x and y of different lengths are
    refused by matplotlib. *)
Definition ax_plot (x y : Dataset) (lbl : string) : M Line2D :=
  if bool_decide (dlen x = dlen y) then mret (mkLine lbl x y)
  else raise (ValueError "x and y must have same first dimension").

(** The body of [for sample in selected_samples], on the loop-carried
    [handles] (the [labels] list is [label <$> handles]). *)
Definition plot_sample (hdf5_file sample : string) (handles : list Line2D)
    : M (list Line2D) :=
  let group_name := "samples/" +:+ sample in
  present ← h5_contains hdf5_file group_name;
  if negb present then
    print ("Warning: Sample " +:+ sample +:+ " not found. Skipping.");;
    mret handles
  else
    group ← h5_open_group hdf5_file group_name;
    wavelengths ← read_dataset group "Wavelengths";
    absorption ← read_dataset group "Absorption";
    line ← ax_plot wavelengths absorption sample;
    mret (handles ++ [line]).

(** [plot_samples(hdf5_file, selected_samples)]: the series of the
    figure shown, or [None] when there is no database. *)
Definition plot_samples (hdf5_file : string) (selected_samples : list string)
    : M (option (list Line2D)) :=
  ex ← path_exists hdf5_file;
  if negb ex then
    print "No database found.";;
    mret None
  else
    h5_open_read hdf5_file;;
    handles ← for_each selected_samples (plot_sample hdf5_file) [];
    mret (Some handles).

(** * What the store holds and what a run does *)

(** ** Sample groups *)

(** The group [add_samples_from_csv] writes for one row, before any
    metadata is offered: both datasets and the [Timestamp] attribute. *)
Definition core_group (timestamp : string) (intensities : list Q) : Group :=
  mkGroup (<["Intensities" := FloatData intensities]>
             (<["Wavelengths" := IntData AS7341_WAVELENGTHS]> ∅))
          (<["Timestamp" := timestamp]> ∅).

Definition write_sample (file timestamp : string) (intensities : list Q)
    (w : World) : World :=
  set_samples file
    (<[timestamp := core_group timestamp intensities]> (samples_of w file)) w.

(** A fully written AS7341 sample group. *)
Definition complete_sample (g : Group) : Prop :=
  datasets g !! "Wavelengths" = Some (IntData AS7341_WAVELENGTHS) ∧
  (∃ l, datasets g !! "Intensities" = Some (FloatData l) ∧ length l = 10) ∧
  is_Some (attrs g !! "Timestamp").

(** [annotates file k w w']: from [w] to [w'] nothing changed in the
    container but attributes added to (or replaced in) sample [k]. *)
Definition annotates (file k : string) (w w' : World) : Prop :=
  csv w' = csv w ∧
  ∃ g g', samples_of w file !! k = Some g ∧
          samples_of w' file = <[k := g']> (samples_of w file) ∧
          datasets g' = datasets g ∧
          dom (attrs g) ⊆ dom (attrs g').

(** [extends file w w']: from [w] to [w'] every sample group of the
    container is kept as it was, and every group that is new is fully
    written. *)
Definition extends (file : string) (w w' : World) : Prop :=
  csv w' = csv w ∧
  (∀ k g, samples_of w file !! k = Some g → samples_of w' file !! k = Some g) ∧
  (∀ k g, samples_of w' file !! k = Some g → samples_of w file !! k = None →
          complete_sample g).

(** ** Rows *)

(** The first of [cols] that [row] lacks. *)
Fixpoint missing_column (row : gmap string Cell) (cols : list string) : option string :=
  match cols with
  | [] => None
  | c :: cols' => if row !! c is Some _ then missing_column row cols' else Some c
  end.

(** The cells of [row] under [cols]. *)
Definition row_cells (row : gmap string Cell) (cols : list string) : list Cell :=
  omap (λ c, row !! c) cols.





(** ** The ingestion contract, as a relation

    For each row: derive the key from the timestamp field; a key that
    is in the store is skipped, with a notice; otherwise the signal
    array is built from the channel columns, cast to float, and a new
    group is written, after which the metadata collector is invoked and
    what it reports is recorded. *)

Inductive row_event :=
| Skipped (key : string)
| Inserted (key : string) (metadata_added : bool).

Inductive RowRun (file : string) : World → gmap string Cell → row_event → World → Prop :=
| run_skip w row time :
    row !! "time" = Some time →
    is_Some (samples_of w file !! py_str time) →
    RowRun file w row (Skipped (py_str time))
      (put_stdout ("Skipping duplicate sample: " +:+ py_str time) w)
| run_insert w row time signal w' reported :
    row !! "time" = Some time →
    samples_of w file !! py_str time = None →
    missing_column row AS7341_COLUMNS = None →
    mapM as_float (row_cells row AS7341_COLUMNS) = Some signal →
    add_metadata (mkRef file ("/samples/" +:+ py_str time))
      (write_sample file (py_str time) signal w) = (w', Ok reported) →
    RowRun file w row (Inserted (py_str time) reported)
      (put_stdout ("Added AS7341 sample: " +:+ py_str time) w').

Inductive RowsRun (file : string) : World → DataFrame → list row_event → World → Prop :=
| rows_nil w : RowsRun file w [] [] w
| rows_cons w row ev w1 rows evs w2 :
    RowRun file w row ev w1 →
    RowsRun file w1 rows evs w2 →
    RowsRun file w (row :: rows) (ev :: evs) w2.

Inductive BatchRun (file : string) : World → list string → list row_event → World → Prop :=
| batch_nil w : BatchRun file w [] [] w
| batch_cons w csv_file df evs1 w1 csv_files evs2 w2 :
    csv w !! csv_file = Some df →
    RowsRun file (put_stdout ("Processing: " +:+ csv_file) w) df evs1 w1 →
    BatchRun file w1 csv_files evs2 w2 →
    BatchRun file w (csv_file :: csv_files) (evs1 ++ evs2) w2.

(** The keys inserted, in order, and whether any insertion came with a
    metadata report. *)
Definition inserted_keys (evs : list row_event) : list string :=
  omap (λ ev, match ev with Inserted k _ => Some k | Skipped _ => None end) evs.

Definition metadata_reported (evs : list row_event) : bool :=
  existsb (λ ev, match ev with Inserted _ b => b | Skipped _ => false end) evs.

(** [grows store keys store']: [store'] has the keys of [store] and
    the keys [keys], which are distinct and were not in [store]. *)
Definition grows (store : gmap string Group) (keys : list string)
    (store' : gmap string Group) : Prop :=
  dom store' = dom store ∪ list_to_set keys ∧
  NoDup keys ∧
  (∀ k, k ∈ keys → store !! k = None).

(** Every row of every file of the batch has a timestamp whose key is
    in [store]. *)
Definition all_stored (store : gmap string Group) (csvs : gmap string DataFrame)
    (csv_files : list string) : Prop :=
  Forall (λ f, ∃ df, csvs !! f = Some df ∧
    Forall (λ row : gmap string Cell, ∃ time,
      row !! "time" = Some time ∧ is_Some (store !! py_str time)) df) csv_files.

(** The world once [add_samples_from_csv] has opened the container and
    made sure of its [samples] group. *)
Definition opened (file : string) (w : World) : World :=
  match h5 w !! file ≫= samples_grp with
  | Some _ => w
  | None => set_samples file ∅ w
  end.

(** The message [plot_samples] prints for a key that is not stored. *)
Definition warning (sample : string) : string :=
  "Warning: Sample " +:+ sample +:+ " not found. Skipping.".

(** ** Example data *)

Definition reading : Cell := mkCell "1.0" (Some 1%Q).

(** A row with all ten channels and the timestamp [t]. *)
Definition as7341_row (t : string) : gmap string Cell :=
  list_to_map (("time", mkCell t None) :: ((λ c, (c, reading)) <$> AS7341_COLUMNS)).

(** A container that holds [T2], a CSV file with rows [T1], [T2], [T3],
    and an operator who declines metadata for the first new sample and
    enters one pair for the second. *)
Definition scenario : World :=
  mkWorld {[ "db.h5" := mkH5 (Some {[ "T2" := core_group "T2" (replicate 10 1%Q) ]}) ]}
          {[ "a.csv" := [as7341_row "T1"; as7341_row "T2"; as7341_row "T3"] ]}
          ["n"; " Y "; "milk "; " cow"; ""]
          [].

(** The world once that file is ingested. *)
Definition ingested : World :=
  (add_samples_from_csv ["a.csv"] "db.h5" "3" scenario).1.



(** An operator who accepts the offer of metadata and then enters
    nothing. *)
Definition accept_then_stop : World :=
  mkWorld {[ "db.h5" := mkH5 (Some {[ "T1" := core_group "T1" (replicate 10 1%Q) ]}) ]}
          ∅
          ["y"; ""]
          [].

(** A container with one spectrophotometer sample, [A1]. *)
Definition spectro_group : Group :=
  mkGroup (<["Transmission" := FloatData [0.5%Q; 0.25%Q]]>
             (<["Absorption" := FloatData [0.25%Q; 0.5%Q]]>
                {[ "Wavelengths" := FloatData [400%Q; 410%Q] ]}))
          {[ "Timestamp" := "A1" ]}.

Definition spectro_store : World :=
  mkWorld {[ "db.h5" := mkH5 (Some {[ "A1" := spectro_group ]}) ]} ∅ [] [].

(** * The rest of the two scripts *)

(** ** script.py: collecting the CSV files *)

(** [s.endswith(suffix)] *)
Definition py_endswith (s suffix : string) : bool :=
  bool_decide (list_ascii_of_string suffix `suffix_of` list_ascii_of_string s).

(** [collect_csv_files(inputs)].  What the file system answers is left
    open: [isdir] and [isfile] are [os.path.isdir] and [os.path.isfile],
    and [glob_csv d] is [glob.glob(os.path.join(d, "*.csv"))]. *)
Section CollectCsvFiles.
Variable isdir isfile : string → bool.
Variable glob_csv : string → list string.

(** The body of [for item in inputs], on the loop-carried
    [all_csv_files]. *)
Definition collect_item (item : string) (all_csv_files : list string)
    : M (list string) :=
  if isdir item then
    let csv_files := glob_csv item in
    mret (all_csv_files ++ csv_files)
  else if isfile item && py_endswith item ".csv" then
    mret (all_csv_files ++ [item])
  else
    print ("Skipping: " +:+ item +:+ " (Not a valid folder or CSV file)");;
    mret all_csv_files.

Definition collect_csv_files (inputs : list string) : M (list string) :=
  for_each inputs collect_item [].
End CollectCsvFiles.

(** ** script.py: pushing the container *)

Definition HDF5_FILE : string := "repo/milk_quality.h5".

(** What [push_updated_hdf5] asks of the operating system, in order:
    [os.chdir(dir)] and [subprocess.run(argv)]. *)
Inductive os_call :=
| Chdir (dir : string)
| Run (argv : list string).

(** [sep.join(l)] *)
Fixpoint py_join (sep : string) (l : list string) : string :=
  match l with
  | [] => ""
  | [x] => x
  | x :: l' => x +:+ sep +:+ py_join sep l'
  end.

(** [source_map.get(data_type, "Unknown Source")] *)
Definition source_type (data_type : string) : string :=
  if bool_decide (data_type = "1") then "RGB Sensor"
  else if bool_decide (data_type = "2") then "Spectrophotometer"
  else if bool_decide (data_type = "3") then "AS7341 Sensor"
  else "Unknown Source".

Definition commit_message (added_samples : list string) (data_type : string)
    (metadata_updates : bool) : string :=
  let metadata_status :=
    if metadata_updates then "with metadata update" else "without metadata update" in
  "Updated HDF5: Added " +:+ pretty.pretty (length added_samples) +:+ " samples from "
    +:+ source_type data_type +:+ " " +:+ metadata_status +:+ nl
    +:+ "Timestamps: "
    +:+ (if added_samples is [] then "None" else py_join ", " added_samples).

(** [push_updated_hdf5(added_samples, data_type, metadata_updates)]:
    the calls it makes, in order, when each of them returns; none when
    the container is missing. *)
Definition push_updated_hdf5 (added_samples : list string) (data_type : string)
    (metadata_updates : bool) : M (list os_call) :=
  ex ← path_exists HDF5_FILE;
  if negb ex then
    print "Error: HDF5 file missing. Aborting push.";;
    mret []
  else
    mret [Chdir "repo";
          Run ["git"; "add"; "milk_quality.h5"];
          Run ["git"; "commit"; "-m";
               commit_message added_samples data_type metadata_updates];
          Run ["git"; "push"; "origin"; "main"];
          Chdir ".."].

(** ** plotting.py: choosing samples in the terminal *)

(** [curses.KEY_DOWN], [curses.KEY_UP] *)
Definition KEY_DOWN : Z := 258.
Definition KEY_UP : Z := 259.

(** What [stdscr.getch()] gives: a key code, or Ctrl-C. *)
Inductive key_event :=
| Key (code : Z)
| CtrlC.

(** How the selection ends: a list is returned, [None] is returned,
    an exception leaves the function, or the keys typed so far leave it
    waiting in [getch]. *)
Inductive selection :=
| Returned (selected_samples : list string)
| ReturnedNone
| KeyboardInterrupt
| IndexError
| Waiting.

(** [[ts for i, ts in enumerate(timestamps) if selected[i]]], for a
    [selected] as long as [timestamps]. *)
Definition chosen (timestamps : list string) (selected : list bool) : list string :=
  (filter (λ p : string * bool, p.2 = true) (zip timestamps selected)).*1.

(** The [while True] loop of [select_samples_curses]; each turn draws
    the menu (see [menu_rows]), which changes nothing and is taken to
    succeed, and reads one key. *)
Fixpoint select_loop (timestamps : list string) (keys : list key_event)
    (selected : list bool) (current : nat) : selection :=
  match keys with
  | [] => Waiting
  | CtrlC :: _ => KeyboardInterrupt
  | Key key :: keys' =>
      if bool_decide (key = KEY_UP) && bool_decide (0 < current)%nat then
        select_loop timestamps keys' selected (current - 1)
      else if bool_decide (key = KEY_DOWN)
              && bool_decide (Z.of_nat current < Z.of_nat (length timestamps) - 1)%Z then
        select_loop timestamps keys' selected (current + 1)
      else if bool_decide (key = 32%Z) then
        match selected !! current with
        | Some b => select_loop timestamps keys' (<[current := negb b]> selected) current
        | None => IndexError
        end
      else if bool_decide (key = 10%Z) then Returned (chosen timestamps selected)
      else select_loop timestamps keys' selected current
  end.

(** [select_samples_curses(stdscr, timestamps)], for the keys typed. *)
Definition select_samples_curses (keys : list key_event) (timestamps : list string)
    : selection :=
  select_loop timestamps keys (replicate (length timestamps) false) 0.

(** [run_curses_selection(timestamps)], with what it prints. *)
Definition run_curses_selection (keys : list key_event) (timestamps : list string)
    : list string * selection :=
  match select_samples_curses keys timestamps with
  | KeyboardInterrupt => ([nl +:+ "Cancelled. Resetting terminal..."], ReturnedNone)
  | r => ([], r)
  end.

(** [s[:n]] *)
Definition py_slice_to (s : string) (n : Z) : string :=
  let len := Z.of_nat (String.length s) in
  let stop := if (n <? 0)%Z then Z.max 0 (len + n) else Z.min n len in
  substring 0 (Z.to_nat stop) s.

(** One drawn line of the menu: its screen row, its text, and whether
    it is shown in reverse video. *)
Record MenuRow := mkRow {
  row_y : Z;
  row_text : string;
  row_reverse : bool
}.

(** The [for i, ts in enumerate(timestamps)] loop that draws the menu
    on a screen of [height] lines and [width] columns, from index [i]
    on. *)
Fixpoint menu_rows_from (i : nat) (height width : Z) (timestamps : list string)
    (selected : list bool) (current : nat) : list MenuRow :=
  match timestamps with
  | [] => []
  | ts :: timestamps' =>
      if bool_decide (height ≤ Z.of_nat i + 2)%Z then []
      else
        let mark := if default false (selected !! i) then "[X] " else "[ ] " in
        let ts_display :=
          if bool_decide (width - 6 < Z.of_nat (String.length ts))%Z
          then py_slice_to ts (width - 6) else ts in
        mkRow (Z.of_nat i + 2) (mark +:+ ts_display) (bool_decide (i = current))
        :: menu_rows_from (S i) height width timestamps' selected current
  end.

Definition menu_rows := menu_rows_from 0.

(** ** plotting.py: the legend *)

(** [toggle_visibility(event)] for the legend line [artist] that was
    clicked, over [zip(handles, leg.get_lines())] from index [i] on:
    the visibility of each plotted line, the alpha of each legend line,
    and the number of redraws. *)
Fixpoint toggle_from (i artist : nat) (handles : list bool) (leg_lines : list Q)
    : list bool * list Q * nat :=
  match handles, leg_lines with
  | line :: handles', leg_line :: leg_lines' =>
      let '(hs, ls, draws) := toggle_from (S i) artist handles' leg_lines' in
      if bool_decide (artist = i) then
        let visible := negb line in
        (visible :: hs, (if visible then 1%Q else (3 # 10)%Q) :: ls, S draws)
      else (line :: hs, leg_line :: ls, draws)
  | _, _ => (handles, leg_lines, 0)
  end.

Definition toggle_visibility := toggle_from 0.

(** ** What a batch holds *)

(** The key a row is stored under, and the signal it carries. *)
Definition row_key (row : gmap string Cell) : option string :=
  py_str <$> row !! "time".

Definition row_signal (row : gmap string Cell) : option (list Q) :=
  mapM as_float (row_cells row AS7341_COLUMNS).

(** The rows of the files of a batch, in the order they are read. *)
Definition batch_rows (csvs : gmap string DataFrame) (csv_files : list string)
    : list (gmap string Cell) :=
  csv_files ≫= λ f, default [] (csvs !! f).

(** The first row of [rows] whose key is [k]. *)
Fixpoint first_row (k : string) (rows : list (gmap string Cell))
    : option (gmap string Cell) :=
  match rows with
  | [] => None
  | row :: rows' =>
      if bool_decide (row_key row = Some k) then Some row else first_row k rows'
  end.

(** The attributes after the pairs [pairs] were entered at the
    metadata prompts, and the console lines that enter them. *)
Definition enter_pairs (pairs : list (string * string)) (attributes : gmap string string)
    : gmap string string :=
  foldl (λ m p, <[PyStr.strip p.1 := PyStr.strip p.2]> m) attributes pairs.

Definition pair_lines (pairs : list (string * string)) : list string :=
  pairs ≫= λ p, [p.1; p.2].

(** [only_prints w w']: from [w] to [w'] nothing changed but what is
    on the screen. *)
Definition only_prints (w w' : World) : Prop :=
  h5 w' = h5 w ∧ csv w' = csv w ∧ stdin w' = stdin w.

(** What [collect_csv_files] takes from one input, and the notice it
    prints for an input it takes nothing from. *)
Definition accepted (isdir isfile : string → bool) (glob_csv : string → list string)
    (item : string) : list string :=
  if isdir item then glob_csv item
  else if isfile item && py_endswith item ".csv" then [item]
  else [].

Definition rejected (isdir isfile : string → bool) (item : string) : Prop :=
  isdir item = false ∧ (isfile item && py_endswith item ".csv") = false.

#[global] Instance rejected_dec isdir isfile item :
  Decision (rejected isdir isfile item).
Proof. unfold rejected. apply _. Defined.

Definition skip_notice (item : string) : string :=
  "Skipping: " +:+ item +:+ " (Not a valid folder or CSV file)".

(** Keys that move down the list once and toggle the entries that
    [mask] marks on the way, and the same followed by ENTER. *)
Definition keys_over (mask : list bool) : list key_event :=
  mask ≫= λ b : bool, (if b then [Key 32] else []) ++ [Key KEY_DOWN].

Definition keys_for (mask : list bool) : list key_event :=
  keys_over mask ++ [Key 10].

(** The calls of a push that is not aborted. *)
Definition push_calls (message : string) : list os_call :=
  [Chdir "repo";
   Run ["git"; "add"; "milk_quality.h5"];
   Run ["git"; "commit"; "-m"; message];
   Run ["git"; "push"; "origin"; "main"];
   Chdir ".."].


(** ** Link names *)

(** The names HDF5 gives to the members of a group: not empty, not
    ["."], and without ["/"].  The path ["/samples/" ++ k] addresses the
    member [k] of [samples] exactly when [k] is such a name; a timestamp
    that is not one (["2024/01/01"]) is read by h5py as a path through
    nested groups, which the store of this file does not have. *)
Definition link_name (k : string) : Prop :=
  k ≠ "" ∧ k ≠ "." ∧ "/"%char ∉ list_ascii_of_string k.

#[global] Instance link_name_dec k : Decision (link_name k).
Proof. unfold link_name. apply _. Defined.

(** Every timestamp in the files of a batch is a link name. *)
Definition batch_link_names (csvs : gmap string DataFrame) (csv_files : list string)
    : Prop :=
  Forall (λ row, from_option link_name True (row_key row)) (batch_rows csvs csv_files).

#[global] Instance batch_link_names_dec csvs csv_files :
  Decision (batch_link_names csvs csv_files).
Proof.
  unfold batch_link_names. apply Forall_dec. intros row.
  destruct (row_key row) as [k|]; simpl; [apply link_name_dec|apply True_dec].
Defined.

(** ** More example data *)


(** A CSV file whose only row has the text [abc] in the [CLEAR]
    column, which is no number (and none of the texts pandas reads as a
    missing value), and no container yet. *)
Definition garbled_row : gmap string Cell :=
  <["CLEAR" := mkCell "abc" None]> (as7341_row "T1").

Definition garbled : World :=
  mkWorld ∅ {[ "a.csv" := [garbled_row] ]} [] [].

(** An operator who accepts the offer of metadata, enters one pair and
    stops. *)
Definition enters_pair : World :=
  mkWorld {[ "db.h5" := mkH5 (Some {[ "T1" := core_group "T1" (replicate 10 1%Q) ]}) ]}
          ∅
          [" Y "; "milk "; " cow"; ""; "later"]
          [].

(** A first run of [script.py]: one CSV file with one row, no
    container yet, and an operator who declines metadata. *)
Definition first_run : World :=
  mkWorld ∅ {[ "a.csv" := [as7341_row "T1"] ]} ["n"] [].

(** * Properties *)

(** ** Names and the store *)

Lemma resolve_abs (k : string) : resolve ("/samples/" +:+ k) = Some (Sample k).
Proof. reflexivity. Qed.

Lemma resolve_rel (k : string) : resolve ("samples/" +:+ k) = Some (Sample k).
Proof. reflexivity. Qed.

Lemma samples_of_set_samples file m w :
  samples_of (set_samples file m w) file = m.
Proof. unfold samples_of, set_samples, set_h5; simpl. by rewrite lookup_insert_eq. Qed.

Lemma set_samples_twice file m m' w :
  set_samples file m' (set_samples file m w) = set_samples file m' w.
Proof. unfold set_samples, set_h5; simpl. by rewrite insert_insert_eq. Qed.

Lemma samples_of_put_stdout s w file :
  samples_of (put_stdout s w) file = samples_of w file.
Proof. reflexivity. Qed.

(** Membership as [h5_contains] computes it agrees with a lookup in the
    store. *)
Lemma h5_contains_sample file k w :
  h5_contains file ("/samples/" +:+ k) w
  = (w, Ok (bool_decide (is_Some (samples_of w file !! k)))).
Proof.
  unfold h5_contains, samples_of. rewrite resolve_abs.
  destruct (h5 w !! file) as [[[m|]]|]; simpl; try done.
  all: f_equal; f_equal; symmetry; apply bool_decide_eq_false;
    rewrite lookup_empty; by intros [? ?].
Qed.

Lemma h5_contains_sample_rel file k w :
  h5_contains file ("samples/" +:+ k) w
  = (w, Ok (bool_decide (is_Some (samples_of w file !! k)))).
Proof.
  unfold h5_contains, samples_of. rewrite resolve_rel.
  destruct (h5 w !! file) as [[[m|]]|]; simpl; try done.
  all: f_equal; f_equal; symmetry; apply bool_decide_eq_false;
    rewrite lookup_empty; by intros [? ?].
Qed.

(** ** The monad *)

Lemma run_eq {A} (w1 w2 : World) (r1 r2 : Result A) :
  (w1, r1) = (w2, r2) → w2 = w1 ∧ r2 = r1.
Proof. by intros [= -> ->]. Qed.

Lemma bind_ok {A B} (m : M A) (f : A → M B) w w' a :
  m w = (w', Ok a) → (m ≫= f) w = f a w'.
Proof. intros H. unfold mbind, M_bind. by rewrite H. Qed.

Lemma bind_raise {A B} (m : M A) (f : A → M B) w w' e :
  m w = (w', Raise e) → (m ≫= f) w = (w', Raise e).
Proof. intros H. unfold mbind, M_bind. by rewrite H. Qed.

Lemma write_core_run {A} file ts l (k : GroupRef → M A) w :
  samples_of w file !! ts = None →
  (sample_group ← h5_create_group file ("/samples/" +:+ ts);
   create_dataset sample_group "Wavelengths" (IntData AS7341_WAVELENGTHS);;
   create_dataset sample_group "Intensities" (FloatData l);;
   attrs_set sample_group "Timestamp" ts;;
   k sample_group) w
  = k (mkRef file ("/samples/" +:+ ts)) (write_sample file ts l w).
Proof.
  intros Hfresh.
  erewrite bind_ok; last first.
  { unfold h5_create_group. rewrite resolve_abs, Hfresh. reflexivity. }
  erewrite bind_ok; last first.
  { unfold create_dataset, get_group, put_group; simpl gname; simpl gfile. rewrite resolve_abs.
    rewrite samples_of_set_samples, lookup_insert_eq. simpl.
    rewrite lookup_empty, set_samples_twice, insert_insert_eq. reflexivity. }
  erewrite bind_ok; last first.
  { unfold create_dataset, get_group, put_group; simpl gname; simpl gfile. rewrite resolve_abs.
    rewrite samples_of_set_samples, lookup_insert_eq. simpl.
    rewrite lookup_insert_ne by done.
    rewrite lookup_empty, set_samples_twice, insert_insert_eq. reflexivity. }
  erewrite bind_ok; last first.
  { unfold attrs_set, get_group, put_group; simpl gname; simpl gfile. rewrite resolve_abs.
    rewrite samples_of_set_samples, lookup_insert_eq. simpl.
    rewrite set_samples_twice, insert_insert_eq. reflexivity. }
  reflexivity.
Qed.

(** ** Metadata only annotates *)

Lemma annotates_refl file k w g :
  samples_of w file !! k = Some g → annotates file k w w.
Proof.
  intros H. split; [done|]. exists g, g. split_and!; try done.
  by rewrite insert_id.
Qed.

Lemma annotates_trans file k w1 w2 w3 :
  annotates file k w1 w2 → annotates file k w2 w3 → annotates file k w1 w3.
Proof.
  intros [Hc1 (g1 & g2 & H1 & H2 & H3 & H4)] [Hc2 (g2' & g3 & H1' & H2' & H3' & H4')].
  split; [congruence|].
  rewrite H2, lookup_insert_eq in H1'. injection H1' as <-.
  exists g1, g3. split_and!; try done.
  - by rewrite H2', H2, insert_insert_eq.
  - congruence.
  - by transitivity (dom (attrs g2)).
Qed.

Lemma annotates_put_stdout file k s w w' :
  annotates file k w w' → annotates file k w (put_stdout s w').
Proof. done. Qed.

Lemma annotates_attrs_set file k name value w g :
  samples_of w file !! k = Some g →
  ∃ w', attrs_set (mkRef file ("/samples/" +:+ k)) name value w = (w', Ok tt) ∧
        annotates file k w w'.
Proof.
  intros Hg. unfold attrs_set, get_group, put_group; simpl gname; simpl gfile.
  rewrite resolve_abs, Hg. eexists; split; [reflexivity|].
  split; [done|]. eexists _, _. split_and!; [done|..].
  - by rewrite samples_of_set_samples.
  - done.
  - simpl. rewrite dom_insert_L. apply union_subseteq_r.
Qed.


Lemma metadata_loop_unfold g turns w :
  metadata_loop g turns w =
  let p1 := "Enter metadata key (or press Enter to stop): " in
  match stdin w with
  | [] => (put_stdout p1 w, Raise EOFError)
  | l1 :: rest =>
      let w1 := set_stdin rest (put_stdout p1 w) in
      let key := PyStr.strip l1 in
      if bool_decide (key = "") then (w1, Ok tt)
      else
        let p2 := "Enter value for " +:+ key +:+ ": " in
        match rest with
        | [] => (put_stdout p2 w1, Raise EOFError)
        | l2 :: rest2 =>
            let value := PyStr.strip l2 in
            match attrs_set g key value (set_stdin rest2 (put_stdout p2 w1)) with
            | (w3, Ok _) =>
                let w4 := put_stdout ("Added metadata: " +:+ key +:+ " = " +:+ value) w3 in
                match turns with
                | [] => (w4, Ok tt)
                | _ :: turns' => metadata_loop g turns' w4
                end
            | (w3, Raise e) => (w3, Raise e)
            end
        end
  end.
Proof.
  destruct turns; simpl; unfold mbind, M_bind, fmap, M_fmap, input; simpl.
  all: destruct (stdin w) as [|l1 [|l2 rest2]]; simpl; try done.
  all: case_bool_decide; simpl; try done.
  all: destruct (attrs_set _ _ _ _) as [w3 [[]|e]]; done.
Qed.

Lemma annotates_set_stdin file k l w w' :
  annotates file k w w' → annotates file k w (set_stdin l w').
Proof. done. Qed.

Ltac annotates_stdio :=
  repeat first [apply annotates_put_stdout | apply annotates_set_stdin];
  eapply annotates_refl; eassumption.

Lemma metadata_loop_annotates file k turns w w' r :
  is_Some (samples_of w file !! k) →
  metadata_loop (mkRef file ("/samples/" +:+ k)) turns w = (w', r) →
  annotates file k w w'.
Proof.
  revert w. induction turns as [|t turns IH]; intros w [g Hg] Hrun.
  all: rewrite metadata_loop_unfold in Hrun; simpl in Hrun.
  all: destruct (stdin w) as [|l1 rest1] eqn:Hin;
    [injection Hrun as <- <-; annotates_stdio|].
  all: case_bool_decide;
    [injection Hrun as <- <-; annotates_stdio|].
  all: destruct rest1 as [|l2 rest2];
    [injection Hrun as <- <-; annotates_stdio|].
  all: match type of Hrun with
       | context [attrs_set ?g0 ?a ?b ?w0] =>
           destruct (annotates_attrs_set file k a b w0 g Hg) as (w3 & Hset & Hann);
           rewrite Hset in Hrun
       end.
  - injection Hrun as <- <-. apply annotates_put_stdout. exact Hann.
  - apply IH in Hrun.
    + eapply annotates_trans; [|exact Hrun]. apply annotates_put_stdout, Hann.
    + destruct Hann as [_ (g1 & g2 & _ & H2 & _)].
      rewrite samples_of_put_stdout, H2, lookup_insert_eq. eauto.
Qed.

Lemma add_metadata_annotates file k w w' r :
  is_Some (samples_of w file !! k) →
  add_metadata (mkRef file ("/samples/" +:+ k)) w = (w', r) →
  annotates file k w w'.
Proof.
  intros [g Hg] Hrun. unfold add_metadata in Hrun.
  unfold mbind at 1, M_bind at 1, fmap, M_fmap, input in Hrun. simpl in Hrun.
  destruct (stdin w) as [|l rest] eqn:Hin; simpl in Hrun;
    [injection Hrun as <- <-; annotates_stdio|].
  case_bool_decide; [|injection Hrun as <- <-; annotates_stdio].
  unfold mbind, M_bind, pending_input in Hrun.
  match type of Hrun with
  | context [metadata_loop ?g0 ?t ?w0] =>
      destruct (metadata_loop g0 t w0) as [w1 r1] eqn:Hloop
  end.
  apply metadata_loop_annotates in Hloop; [|simpl; eauto].
  destruct r1; injection Hrun as <- <-; exact Hloop.
Qed.


Lemma attrs_set_stdin g name value w w' r :
  attrs_set g name value w = (w', r) → stdin w' = stdin w.
Proof.
  unfold attrs_set, put_group.
  destruct (get_group g w); [|by intros [-> ->]%run_eq].
  destruct (resolve (gname g)) as [[|k]|]; by intros [-> ->]%run_eq.
Qed.

(** The loop never uses up its [turns]: with at least as many turns as
    there are lines on the console, more turns change nothing. *)
Lemma metadata_loop_turns g turns more w :
  (length (stdin w) ≤ length turns)%nat →
  metadata_loop g (turns ++ more) w = metadata_loop g turns w.
Proof.
  revert w. induction turns as [|t turns IH]; intros w Hlen.
  - destruct (stdin w) eqn:Hin; [|simpl in Hlen; lia].
    rewrite !metadata_loop_unfold, Hin. done.
  - rewrite !metadata_loop_unfold. cbv zeta.
    destruct (stdin w) as [|l1 [|l2 rest]] eqn:Hin; try done.
    case_bool_decide; [done|].
    destruct (attrs_set _ _ _ _) as [w3 [[]|e]] eqn:Hset; [|done].
    apply attrs_set_stdin in Hset. simpl in Hset.
    cbn [app]. apply IH. simpl. rewrite Hset. simpl in Hlen. lia.
Qed.

(** ** One row *)

Lemma eval_list_row_get row cols w :
  eval_list (row_get row) cols w =
  match missing_column row cols with
  | Some c => (w, Raise (KeyError c))
  | None => (w, Ok (row_cells row cols))
  end.
Proof.
  induction cols as [|c cols IH]; [done|].
  simpl. unfold mbind, M_bind. unfold row_get at 1. unfold row_cells; simpl.
  destruct (row !! c) as [cell|]; simpl; [|done].
  unfold mret at 1, M_ret at 1. rewrite IH.
  by destruct (missing_column row cols).
Qed.

Lemma ingest_row_unfold file row added updates w :
  ingest_row file row (added, updates) w =
  match row !! "time" with
  | None => (w, Raise (KeyError "time"))
  | Some time =>
      let ts := py_str time in
      if bool_decide (is_Some (samples_of w file !! ts)) then
        (put_stdout ("Skipping duplicate sample: " +:+ ts) w, Ok (added, updates))
      else
        match missing_column row AS7341_COLUMNS with
        | Some c => (w, Raise (KeyError c))
        | None =>
            match mapM as_float (row_cells row AS7341_COLUMNS) with
            | None =>
                (w, Raise (ValueError
                             ("could not convert string to float: '"
                              +:+ from_option py_str ""
                                    (not_a_float (row_cells row AS7341_COLUMNS))
                              +:+ "'")))
            | Some l =>
                match add_metadata (mkRef file ("/samples/" +:+ ts)) (write_sample file ts l w) with
                | (w2, Ok b) =>
                    (put_stdout ("Added AS7341 sample: " +:+ ts) w2,
                     Ok (added ++ [ts], updates || b))
                | (w2, Raise e) => (w2, Raise e)
                end
            end
        end
  end.
Proof.
  unfold ingest_row.
  unfold mbind at 1, M_bind at 1. unfold row_get at 1.
  destruct (row !! "time") as [time|]; [|done].
  unfold mret at 1, M_ret at 1.
  unfold mbind at 1, M_bind at 1. rewrite h5_contains_sample.
  case_bool_decide as Hdup; [done|].
  unfold mbind at 1, M_bind at 1. rewrite eval_list_row_get.
  destruct (missing_column row AS7341_COLUMNS); [done|].
  unfold mbind at 1, M_bind at 1, astype_float.
  destruct (mapM as_float _) as [l|]; [|done].
  unfold mret at 1, M_ret at 1.
  rewrite write_core_run.
  2:{ destruct (samples_of w file !! py_str time) eqn:E; [|done]. exfalso; eauto. }
  unfold mbind, M_bind.
  by destruct (add_metadata _ _) as [w2 [b|e]].
Qed.

(** ** Loops *)

Lemma for_each_app {A S} (l1 l2 : list A) (body : A → S → M S) acc w :
  for_each (l1 ++ l2) body acc w
  = (for_each l1 body acc ≫= for_each l2 body) w.
Proof.
  revert acc w. induction l1 as [|x l1 IH]; intros acc w; simpl.
  - done.
  - unfold mbind, M_bind. destruct (body x acc w) as [w1 [acc1|e]]; [|done].
    apply IH.
Qed.

(** A relation on worlds that holds across each turn of a loop holds
    across the loop, however it ends. *)
Lemma for_each_rel {A S} (R : World → World → Prop) (body : A → S → M S) :
  (∀ w, R w w) →
  (∀ w1 w2 w3, R w1 w2 → R w2 w3 → R w1 w3) →
  (∀ x acc w w' r, body x acc w = (w', r) → R w w') →
  ∀ l acc w w' r, for_each l body acc w = (w', r) → R w w'.
Proof.
  intros Hrefl Htrans Hbody l. induction l as [|x l IH]; intros acc w w' r Hrun.
  - injection Hrun as <- <-. apply Hrefl.
  - simpl in Hrun. unfold mbind, M_bind in Hrun.
    destruct (body x acc w) as [w1 [acc1|e]] eqn:Hx.
    + eapply Htrans; [eapply Hbody, Hx | eapply IH, Hrun].
    + injection Hrun as <- <-. eapply Hbody, Hx.
Qed.

(** ** Ingestion extends the store *)

Lemma extends_refl file w : extends file w w.
Proof. split_and!; [done|done|]. intros k g H1 H2. congruence. Qed.

Lemma extends_trans file w1 w2 w3 :
  extends file w1 w2 → extends file w2 w3 → extends file w1 w3.
Proof.
  intros (Hc1 & Hk1 & Hn1) (Hc2 & Hk2 & Hn2). split_and!.
  - congruence.
  - eauto.
  - intros k g H3 H1. destruct (samples_of w2 file !! k) as [g2|] eqn:H2.
    + pose proof (Hk2 _ _ H2) as H3'. rewrite H3 in H3'. injection H3' as ->.
      eauto.
    + eauto.
Qed.

Lemma extends_put_stdout file s w : extends file w (put_stdout s w).
Proof. exact (extends_refl file w). Qed.

(** Writing a fresh sample and then annotating it extends the store by
    one fully written group. *)
Lemma write_annotate file ts signal w w' :
  samples_of w file !! ts = None →
  annotates file ts (write_sample file ts signal w) w' →
  csv w' = csv w ∧
  ∃ g, samples_of w' file = <[ts := g]> (samples_of w file) ∧
       datasets g = datasets (core_group ts signal) ∧
       is_Some (attrs g !! "Timestamp").
Proof.
  intros Hfresh [Hcsv (g0 & g & Hg0 & Hs & Hd & Ha)].
  unfold write_sample in Hg0, Hs. rewrite samples_of_set_samples in Hg0, Hs.
  rewrite lookup_insert_eq in Hg0. injection Hg0 as <-.
  rewrite insert_insert_eq in Hs.
  split; [done|]. exists g. split_and!; [done|done|].
  apply elem_of_dom, Ha, elem_of_dom. simpl. rewrite lookup_insert_eq. eauto.
Qed.

Lemma complete_core ts signal g :
  length signal = 10 →
  datasets g = datasets (core_group ts signal) →
  is_Some (attrs g !! "Timestamp") →
  complete_sample g.
Proof.
  intros Hlen Hd Ha. unfold complete_sample. rewrite Hd. simpl. split_and!.
  - by rewrite lookup_insert_ne, lookup_insert_eq.
  - exists signal. by rewrite lookup_insert_eq.
  - done.
Qed.

Lemma row_cells_length row cols :
  missing_column row cols = None → length (row_cells row cols) = length cols.
Proof.
  unfold row_cells. induction cols as [|c cols IH]; simpl; [done|].
  destruct (row !! c); [|done]. intros H. simpl. f_equal. by apply IH.
Qed.

Lemma mapM_as_float_length cells signal :
  mapM as_float cells = Some signal → length signal = length cells.
Proof. intros H. symmetry. by eapply length_mapM. Qed.

Lemma ingest_row_extends file row acc w w' r :
  ingest_row file row acc w = (w', r) → extends file w w'.
Proof.
  destruct acc as [added updates]. rewrite ingest_row_unfold.
  destruct (row !! "time") as [time|]; [|intros [-> ->]%run_eq; apply extends_refl].
  cbv zeta. case_bool_decide as Hdup; [intros [-> ->]%run_eq; apply extends_put_stdout|].
  destruct (missing_column row AS7341_COLUMNS) eqn:Hcols;
    [intros [-> ->]%run_eq; apply extends_refl|].
  destruct (mapM as_float _) as [signal|] eqn:Hcast;
    [|intros [-> ->]%run_eq; apply extends_refl].
  assert (samples_of w file !! py_str time = None) as Hfresh.
  { destruct (samples_of w file !! py_str time) eqn:E; [|done]. exfalso; eauto. }
  destruct (add_metadata _ _) as [w2 rm] eqn:Hmeta.
  apply add_metadata_annotates in Hmeta.
  2:{ unfold write_sample. rewrite samples_of_set_samples, lookup_insert_eq. eauto. }
  destruct (write_annotate _ _ _ _ _ Hfresh Hmeta) as (Hcsv & g & Hs & Hd & Ha).
  assert (extends file w w2) as Hext.
  { split_and!; [done|..].
    - intros k g0 Hk. rewrite Hs, lookup_insert_ne; [done|]. congruence.
    - intros k g0 Hk Hn. rewrite Hs in Hk.
      destruct (decide (py_str time = k)) as [<-|Hne].
      + rewrite lookup_insert_eq in Hk. injection Hk as <-.
        eapply complete_core; [|done..].
        apply mapM_as_float_length in Hcast. rewrite Hcast.
        by rewrite row_cells_length.
      + rewrite lookup_insert_ne in Hk by done. congruence. }
  destruct rm; intros [-> ->]%run_eq; exact Hext.
Qed.

Lemma ingest_file_unfold file data_type csv_file acc w :
  ingest_file file data_type csv_file acc w =
  let w1 := put_stdout ("Processing: " +:+ csv_file) w in
  if bool_decide (data_type = "3") then
    match csv w !! csv_file with
    | Some df => for_each df (ingest_row file) acc w1
    | None => (w1, Raise (FileNotFoundError csv_file))
    end
  else (w1, Ok acc).
Proof.
  unfold ingest_file, mbind, M_bind, print, read_csv; simpl.
  case_bool_decide; [|done]. unfold put_stdout; simpl. by destruct (csv w !! csv_file).
Qed.

Lemma ingest_file_extends file data_type csv_file acc w w' r :
  ingest_file file data_type csv_file acc w = (w', r) → extends file w w'.
Proof.
  rewrite ingest_file_unfold. cbv zeta.
  case_bool_decide; [|intros [-> ->]%run_eq; apply extends_put_stdout].
  destruct (csv w !! csv_file) as [df|];
    [|intros [-> ->]%run_eq; apply extends_put_stdout].
  intros Hrun.
  apply (extends_trans _ _ (put_stdout ("Processing: " +:+ csv_file) w));
    [apply extends_put_stdout|].
  revert Hrun. apply (for_each_rel (extends file)).
  - apply extends_refl.
  - apply extends_trans.
  - apply ingest_row_extends.
Qed.

Lemma samples_of_opened file w : samples_of (opened file w) file = samples_of w file.
Proof.
  unfold opened. destruct (h5 w !! file ≫= samples_grp) as [m|] eqn:E; [done|].
  rewrite samples_of_set_samples. unfold samples_of.
  destruct (h5 w !! file) as [[[m|]]|]; simpl in *; done.
Qed.

Lemma csv_opened file w : csv (opened file w) = csv w.
Proof. unfold opened. by destruct (h5 w !! file ≫= samples_grp). Qed.

Lemma add_samples_from_csv_unfold csv_files file data_type w :
  add_samples_from_csv csv_files file data_type w
  = for_each csv_files (ingest_file file data_type) ([], false) (opened file w).
Proof.
  unfold add_samples_from_csv, opened.
  unfold mbind at 1, M_bind at 1, h5_open_append.
  destruct (h5 w !! file) as [[[m|]]|] eqn:Hf.
  - unfold mbind at 1, M_bind at 1, h5_contains; simpl. by rewrite Hf.
  - unfold mbind at 1, M_bind at 1, h5_contains; simpl. rewrite Hf; simpl.
    unfold mbind at 1 2, M_bind at 1 2, h5_create_group; simpl. by rewrite Hf.
  - unfold mbind at 1, M_bind at 1, h5_contains; simpl.
    rewrite lookup_insert_eq; simpl.
    unfold mbind at 1 2, M_bind at 1 2, h5_create_group; simpl.
    rewrite lookup_insert_eq; simpl.
    unfold set_samples, set_h5; simpl. by rewrite insert_insert_eq.
Qed.

Lemma add_samples_from_csv_extends csv_files file data_type w w' r :
  add_samples_from_csv csv_files file data_type w = (w', r) → extends file w w'.
Proof.
  rewrite add_samples_from_csv_unfold. intros Hrun.
  assert (extends file (opened file w) w') as (Hc & Hk & Hn).
  { revert Hrun. apply (for_each_rel (extends file)).
    - apply extends_refl.
    - apply extends_trans.
    - apply ingest_file_extends. }
  rewrite samples_of_opened in Hk, Hn. rewrite csv_opened in Hc. by split_and!.
Qed.

(** ** The code against the ingestion contract *)

Lemma ingest_row_run file row added updates w w' added' updates' :
  ingest_row file row (added, updates) w = (w', Ok (added', updates')) →
  ∃ ev, RowRun file w row ev w' ∧
        added' = added ++ inserted_keys [ev] ∧
        updates' = updates || metadata_reported [ev].
Proof.
  rewrite ingest_row_unfold.
  destruct (row !! "time") as [time|] eqn:Htime; [|done].
  cbv zeta. case_bool_decide as Hdup.
  { intros [= <- <- <-]. exists (Skipped (py_str time)). split_and!.
    - by constructor.
    - simpl. by rewrite app_nil_r.
    - simpl. by rewrite orb_false_r. }
  destruct (missing_column row AS7341_COLUMNS) eqn:Hcols; [done|].
  destruct (mapM as_float _) as [signal|] eqn:Hcast; [|done].
  destruct (add_metadata _ _) as [w2 [b|e]] eqn:Hmeta; [|done].
  intros [= <- <- <-]. exists (Inserted (py_str time) b). split_and!.
  - econstructor; try done.
    destruct (samples_of w file !! py_str time) eqn:E; [|done]. exfalso; eauto.
  - done.
  - simpl. by rewrite orb_false_r.
Qed.

Lemma RowRun_ingest_row file w row ev w' added updates :
  RowRun file w row ev w' →
  ingest_row file row (added, updates) w
  = (w', Ok (added ++ inserted_keys [ev], updates || metadata_reported [ev])).
Proof.
  intros Hrun. rewrite ingest_row_unfold.
  destruct Hrun as [w row time Htime Hdup | w row time signal w' b Htime Hfresh Hcols Hcast Hmeta].
  - rewrite Htime. cbv zeta. rewrite bool_decide_eq_true_2 by done.
    simpl. by rewrite app_nil_r, orb_false_r.
  - rewrite Htime. cbv zeta. rewrite bool_decide_eq_false_2.
    2:{ rewrite Hfresh. by intros [? ?]. }
    rewrite Hcols, Hcast, Hmeta. simpl. by rewrite orb_false_r.
Qed.

Lemma inserted_keys_app evs1 evs2 :
  inserted_keys (evs1 ++ evs2) = inserted_keys evs1 ++ inserted_keys evs2.
Proof. apply omap_app. Qed.

Lemma metadata_reported_app evs1 evs2 :
  metadata_reported (evs1 ++ evs2) = metadata_reported evs1 || metadata_reported evs2.
Proof. apply existsb_app. Qed.

Lemma ingest_rows_run file rows added updates w w' added' updates' :
  for_each rows (ingest_row file) (added, updates) w = (w', Ok (added', updates')) →
  ∃ evs, RowsRun file w rows evs w' ∧
         added' = added ++ inserted_keys evs ∧
         updates' = updates || metadata_reported evs.
Proof.
  revert added updates w. induction rows as [|row rows IH]; intros added updates w.
  - intros [= <- <- <-]. exists []. split_and!; [constructor| |]; simpl.
    + by rewrite app_nil_r.
    + by rewrite orb_false_r.
  - cbn [for_each]. unfold mbind, M_bind.
    destruct (ingest_row file row (added, updates) w) as [w1 [[a1 u1]|e]] eqn:Hrow; [|done].
    intros Hrest. apply ingest_row_run in Hrow as (ev & Hev & -> & ->).
    apply IH in Hrest as (evs & Hevs & -> & ->).
    exists (ev :: evs). split_and!.
    + by econstructor.
    + rewrite <- app_assoc. f_equal. symmetry. apply (inserted_keys_app [ev] evs).
    + rewrite <- orb_assoc. f_equal. symmetry. apply (metadata_reported_app [ev] evs).
Qed.

Lemma ingest_files_run file csv_files added updates w w' added' updates' :
  for_each csv_files (ingest_file file "3") (added, updates) w
  = (w', Ok (added', updates')) →
  ∃ evs, BatchRun file w csv_files evs w' ∧
         added' = added ++ inserted_keys evs ∧
         updates' = updates || metadata_reported evs.
Proof.
  revert added updates w.
  induction csv_files as [|csv_file csv_files IH]; intros added updates w.
  - intros [= <- <- <-]. exists []. split_and!; [constructor| |]; simpl.
    + by rewrite app_nil_r.
    + by rewrite orb_false_r.
  - cbn [for_each]. unfold mbind, M_bind. rewrite ingest_file_unfold. cbv zeta.
    rewrite bool_decide_eq_true_2 by done.
    destruct (csv w !! csv_file) as [df|] eqn:Hcsv; [|by cbv beta iota].
    destruct (for_each df _ _ _) as [w1 [[a1 u1]|e]] eqn:Hrows; [|by cbv beta iota].
    intros Hrest. apply ingest_rows_run in Hrows as (evs1 & Hevs1 & -> & ->).
    apply IH in Hrest as (evs2 & Hevs2 & -> & ->).
    exists (evs1 ++ evs2). split_and!.
    + by econstructor.
    + by rewrite <- app_assoc, inserted_keys_app.
    + by rewrite <- orb_assoc, metadata_reported_app.
Qed.

(** ** What a run adds to the store *)

Lemma grows_refl (S : gmap string Group) : grows S [] S.
Proof.
  split_and!; [|constructor|by intros k ?%elem_of_nil].
  by rewrite list_to_set_nil, (right_id_L ∅ (∪)).
Qed.

Lemma grows_trans (S1 S2 S3 : gmap string Group) keys1 keys2 :
  grows S1 keys1 S2 → grows S2 keys2 S3 → grows S1 (keys1 ++ keys2) S3.
Proof.
  intros (Hd1 & Hn1 & Hf1) (Hd2 & Hn2 & Hf2). split_and!.
  - by rewrite Hd2, Hd1, list_to_set_app_L, (assoc_L (∪)).
  - apply list.NoDup_app. split_and!; [done| |done].
    intros k Hk1 Hk2. apply Hf2 in Hk2. apply not_elem_of_dom in Hk2.
    apply Hk2. rewrite Hd1. by apply elem_of_union_r, elem_of_list_to_set.
  - intros k [Hk|Hk]%elem_of_app; [by apply Hf1|].
    apply Hf2 in Hk. apply not_elem_of_dom. apply not_elem_of_dom in Hk.
    rewrite Hd1 in Hk. intros Hin. apply Hk. by apply elem_of_union_l.
Qed.

Lemma grows_size (S S' : gmap string Group) keys :
  grows S keys S' → size S' = size S + length keys.
Proof.
  intros (Hd & Hn & Hf).
  rewrite <- (size_dom S'), <- (size_dom S), Hd.
  rewrite size_union.
  - by rewrite size_list_to_set.
  - intros k Hk1 Hk2. apply elem_of_list_to_set in Hk2.
    apply Hf in Hk2. by apply not_elem_of_dom in Hk2.
Qed.


Lemma RowRun_grows file w row ev w' :
  RowRun file w row ev w' →
  grows (samples_of w file) (inserted_keys [ev]) (samples_of w' file).
Proof.
  intros [w0 row0 time Htime Hdup | w0 row0 time signal w2 b Htime Hfresh Hcols Hcast Hmeta].
  - apply grows_refl.
  - apply add_metadata_annotates in Hmeta.
    2:{ unfold write_sample. rewrite samples_of_set_samples, lookup_insert_eq. eauto. }
    destruct (write_annotate _ _ _ _ _ Hfresh Hmeta) as (_ & g & Hs & _).
    rewrite samples_of_put_stdout, Hs. simpl. split_and!.
    + rewrite dom_insert_L, (comm_L (∪)). f_equal.
      cbn [list_to_set]. by rewrite (right_id_L ∅ (∪)).
    + apply NoDup_singleton.
    + by intros k ->%list_elem_of_singleton.
Qed.

Lemma RowsRun_grows file w rows evs w' :
  RowsRun file w rows evs w' →
  grows (samples_of w file) (inserted_keys evs) (samples_of w' file).
Proof.
  induction 1 as [w|w row ev w1 rows evs w2 Hrow Hrows IH].
  - apply grows_refl.
  - change (ev :: evs) with ([ev] ++ evs). rewrite inserted_keys_app.
    eapply grows_trans; [eapply RowRun_grows, Hrow | exact IH].
Qed.

Lemma BatchRun_grows file w csv_files evs w' :
  BatchRun file w csv_files evs w' →
  grows (samples_of w file) (inserted_keys evs) (samples_of w' file).
Proof.
  induction 1 as [w|w csv_file df evs1 w1 csv_files evs2 w2 Hcsv Hrows Hrest IH].
  - apply grows_refl.
  - rewrite inserted_keys_app. eapply grows_trans; [|exact IH].
    apply RowsRun_grows in Hrows. exact Hrows.
Qed.

(** ** Ingesting what is stored already *)

Lemma samples_of_h5 w w' file : h5 w' = h5 w → samples_of w' file = samples_of w file.
Proof. unfold samples_of. by intros ->. Qed.

Lemma RowRun_extends file w row ev w' : RowRun file w row ev w' → extends file w w'.
Proof.
  intros Hrun.
  exact (ingest_row_extends _ _ _ _ _ _ (RowRun_ingest_row file w row ev w' [] false Hrun)).
Qed.

Lemma RowsRun_extends file w rows evs w' : RowsRun file w rows evs w' → extends file w w'.
Proof.
  induction 1 as [w|w row ev w1 rows evs w2 Hrow Hrows IH].
  - apply extends_refl.
  - eapply extends_trans; [eapply RowRun_extends, Hrow | exact IH].
Qed.

Lemma BatchRun_extends file w csv_files evs w' :
  BatchRun file w csv_files evs w' → extends file w w'.
Proof.
  induction 1 as [w|w csv_file df evs1 w1 csv_files evs2 w2 Hcsv Hrows Hrest IH].
  - apply extends_refl.
  - eapply extends_trans; [|exact IH]. apply RowsRun_extends in Hrows. exact Hrows.
Qed.

Lemma RowRun_stored file w row ev w' :
  RowRun file w row ev w' →
  ∃ time, row !! "time" = Some time ∧ is_Some (samples_of w' file !! py_str time).
Proof.
  intros Hrun. pose proof (RowRun_grows _ _ _ _ _ Hrun) as (Hd & _ & _).
  destruct Hrun as [w row time Htime Hdup | w row time signal w' b Htime Hfresh Hcols Hcast Hmeta].
  - exists time. by split.
  - exists time. split; [done|]. apply elem_of_dom. rewrite Hd.
    change (inserted_keys [Inserted (py_str time) b]) with [py_str time].
    apply elem_of_union_r, elem_of_list_to_set, list_elem_of_singleton. done.
Qed.

Lemma stored_mono (S S' : gmap string Group) (row : gmap string Cell) :
  (∀ k g, S !! k = Some g → S' !! k = Some g) →
  (∃ time, row !! "time" = Some time ∧ is_Some (S !! py_str time)) →
  ∃ time, row !! "time" = Some time ∧ is_Some (S' !! py_str time).
Proof. intros Hk (time & Ht & [g Hg]). exists time. eauto. Qed.

Lemma RowsRun_stored file w rows evs w' :
  RowsRun file w rows evs w' →
  Forall (λ row : gmap string Cell, ∃ time,
    row !! "time" = Some time ∧ is_Some (samples_of w' file !! py_str time)) rows.
Proof.
  induction 1 as [w|w row ev w1 rows evs w2 Hrow Hrows IH]; constructor; [|done].
  apply RowsRun_extends in Hrows as (_ & Hk & _).
  eapply stored_mono; [exact Hk|]. eapply RowRun_stored, Hrow.
Qed.

Lemma all_stored_mono (S S' : gmap string Group) csvs csv_files :
  (∀ k g, S !! k = Some g → S' !! k = Some g) →
  all_stored S csvs csv_files → all_stored S' csvs csv_files.
Proof.
  intros Hk. unfold all_stored. apply Forall_impl.
  intros f (df & Hdf & Hrows). exists df. split; [done|].
  revert Hrows. apply Forall_impl. intros row. by apply stored_mono.
Qed.

Lemma BatchRun_stored file w csv_files evs w' :
  BatchRun file w csv_files evs w' →
  all_stored (samples_of w' file) (csv w) csv_files.
Proof.
  induction 1 as [w|w csv_file df evs1 w1 csv_files evs2 w2 Hcsv Hrows Hrest IH].
  - constructor.
  - pose proof (RowsRun_extends _ _ _ _ _ Hrows) as (Hc & _ & _).
    pose proof (BatchRun_extends _ _ _ _ _ Hrest) as (_ & Hk & _).
    constructor.
    + exists df. split; [done|]. apply RowsRun_stored in Hrows.
      revert Hrows. apply Forall_impl. intros row. by apply stored_mono.
    + simpl in Hc. by rewrite <- Hc.
Qed.

(** A batch all of whose keys are stored only prints: each row is a
    skip, nothing is read from the console and the store is untouched. *)
Lemma rerun_rows file df acc w :
  Forall (λ row : gmap string Cell, ∃ time,
    row !! "time" = Some time ∧ is_Some (samples_of w file !! py_str time)) df →
  ∃ w', for_each df (ingest_row file) acc w = (w', Ok acc) ∧
        h5 w' = h5 w ∧ csv w' = csv w ∧ stdin w' = stdin w.
Proof.
  revert w. induction df as [|row df IH]; intros w Hall.
  - by exists w.
  - inversion Hall as [|? ? (time & Htime & Hdup) Hrest]; subst.
    destruct acc as [added updates]. cbn [for_each]. unfold mbind, M_bind.
    rewrite ingest_row_unfold, Htime. cbv zeta.
    rewrite bool_decide_eq_true_2 by done.
    destruct (IH (put_stdout ("Skipping duplicate sample: " +:+ py_str time) w))
      as (w' & Hrun & Hh & Hc & Hi); [done|].
    exists w'. by rewrite Hrun.
Qed.

Lemma rerun_files file csv_files acc w :
  all_stored (samples_of w file) (csv w) csv_files →
  ∃ w', for_each csv_files (ingest_file file "3") acc w = (w', Ok acc) ∧
        h5 w' = h5 w ∧ csv w' = csv w ∧ stdin w' = stdin w.
Proof.
  revert w. induction csv_files as [|f csv_files IH]; intros w Hall.
  - by exists w.
  - inversion Hall as [|? ? (df & Hdf & Hrows) Hrest]; subst.
    cbn [for_each]. unfold mbind, M_bind.
    rewrite ingest_file_unfold. cbv zeta.
    rewrite bool_decide_eq_true_2 by done. rewrite Hdf.
    destruct (rerun_rows file df acc (put_stdout ("Processing: " +:+ f) w))
      as (w1 & Hrun & Hh & Hc & Hi); [done|].
    rewrite Hrun. simpl in Hh, Hc, Hi.
    destruct (IH w1) as (w' & Hrun' & Hh' & Hc' & Hi').
    { rewrite (samples_of_h5 w w1 file) by done. by rewrite Hc. }
    exists w'. split_and!; [done|..]; congruence.
Qed.

(** ** Well-formed batches return, unless the console ends *)






(** ** Ingestion: the claims *)

Lemma ingest_row_duplicate file row time acc w :
  row !! "time" = Some time →
  is_Some (samples_of w file !! py_str time) →
  ingest_row file row acc w
  = (put_stdout ("Skipping duplicate sample: " +:+ py_str time) w, Ok acc).
Proof.
  intros Htime Hdup. destruct acc as [added updates].
  rewrite ingest_row_unfold, Htime. cbv zeta.
  by rewrite bool_decide_eq_true_2.
Qed.

Lemma add_samples_from_csv_run csv_files file w w' keys flag :
  add_samples_from_csv csv_files file "3" w = (w', Ok (keys, flag)) →
  ∃ evs, BatchRun file (opened file w) csv_files evs w' ∧
         keys = inserted_keys evs ∧ flag = metadata_reported evs.
Proof.
  rewrite add_samples_from_csv_unfold. intros Hrun.
  apply ingest_files_run in Hrun as (evs & Hevs & -> & ->). by exists evs.
Qed.

Lemma stdout_opened file w : stdout (opened file w) = stdout w.
Proof. unfold opened. by destruct (h5 w !! file ≫= samples_grp). Qed.

Lemma other_types_run csv_files file data_type w :
  data_type ≠ "3" →
  ∃ w', for_each csv_files (ingest_file file data_type) ([], false) w
        = (w', Ok ([], false)) ∧ h5 w' = h5 w.
Proof.
  intros Hty. revert w. induction csv_files as [|f csv_files IH]; intros w.
  - by exists w.
  - cbn [for_each]. unfold mbind, M_bind. rewrite ingest_file_unfold. cbv zeta.
    rewrite bool_decide_eq_false_2 by done.
    destruct (IH (put_stdout ("Processing: " +:+ f) w)) as (w' & Hrun & Hh).
    by exists w'.
Qed.


(** C1. A row whose key is a group of the store is skipped, with a
    notice, whatever else the row holds: the store and the accumulated
    keys are as before.  Across a whole batch that returns, every group
    stored beforehand is kept as it was and its key is not among the
    inserted keys, and ingesting the same batch again inserts nothing
    and leaves the store as it is; when the timestamps of the batch are
    link names, the store grows by exactly the number of inserted
    keys. *)
Theorem duplicate_rows_are_skipped :
  (∀ file row time acc w,
     row !! "time" = Some time →
     is_Some (samples_of w file !! py_str time) →
     ingest_row file row acc w
     = (put_stdout ("Skipping duplicate sample: " +:+ py_str time) w, Ok acc)) ∧
  (∀ csv_files file w w1 keys flag,
     add_samples_from_csv csv_files file "3" w = (w1, Ok (keys, flag)) →
     (∀ k g, samples_of w file !! k = Some g →
             samples_of w1 file !! k = Some g ∧ k ∉ keys) ∧
     (batch_link_names (csv w) csv_files →
      size (samples_of w1 file) = size (samples_of w file) + length keys) ∧
     (∀ lines, ∃ w2,
        add_samples_from_csv csv_files file "3" (set_stdin lines w1)
        = (w2, Ok ([], false)) ∧
        samples_of w2 file = samples_of w1 file)).
Proof.
  split; [apply ingest_row_duplicate|].
  intros csv_files file w w1 keys flag Hrun.
  pose proof (add_samples_from_csv_extends _ _ _ _ _ _ Hrun) as (Hcsv & Hkeep & _).
  apply add_samples_from_csv_run in Hrun as (evs & Hevs & -> & ->).
  pose proof (BatchRun_grows _ _ _ _ _ Hevs) as Hgrows.
  rewrite samples_of_opened in Hgrows.
  split_and!.
  - intros k g Hk. split; [by apply Hkeep|].
    intros Hin. destruct Hgrows as (_ & _ & Hfresh).
    apply Hfresh in Hin. congruence.
  - intros _. by apply grows_size.
  - intros lines. rewrite add_samples_from_csv_unfold.
    destruct (rerun_files file csv_files ([], false) (opened file (set_stdin lines w1)))
      as (w2 & Hrun2 & Hh & _).
    + rewrite samples_of_opened, csv_opened. simpl.
      apply BatchRun_stored in Hevs. rewrite csv_opened in Hevs.
      by rewrite Hcsv.
    + exists w2. split; [done|].
      by rewrite (samples_of_h5 _ _ file Hh), samples_of_opened.
Qed.




(** C10. For a data type other than ["3"] the call returns no key and
    no metadata flag, and the sample groups of the container are what
    they were, whatever the CSV files. *)
Theorem other_data_types_ingest_nothing csv_files file data_type w :
  data_type ≠ "3" →
  ∃ w', add_samples_from_csv csv_files file data_type w = (w', Ok ([], false)) ∧
        samples_of w' file = samples_of w file ∧
        stdout w' = stdout w ++ ((λ f, "Processing: " +:+ f) <$> csv_files).
Proof.
  intros Hty. rewrite add_samples_from_csv_unfold.
  rewrite <- (samples_of_opened file w), <- (stdout_opened file w).
  generalize (opened file w). clear w.
  induction csv_files as [|f csv_files IH]; intros w.
  - exists w. simpl. by rewrite app_nil_r.
  - cbn [for_each]. unfold mbind, M_bind. rewrite ingest_file_unfold. cbv zeta.
    rewrite bool_decide_eq_false_2 by done.
    destruct (IH (put_stdout ("Processing: " +:+ f) w)) as (w' & Hrun & Hs & Ho).
    exists w'. split_and!; [done|done|].
    rewrite Ho. simpl. by rewrite <- app_assoc.
Qed.

(** ** A row that lacks a column *)



(** ** Listing *)

Lemma list_samples_unfold file w :
  list_samples file w =
  match h5 w !! file with
  | None => (put_stdout "No database found." w, Ok [])
  | Some f =>
      match samples_grp f with
      | None => (put_stdout "No samples found in HDF5 file." w, Ok [])
      | Some m => (w, Ok (map_to_list m).*1)
      end
  end.
Proof.
  unfold list_samples, mbind, M_bind, path_exists, h5_open_read, h5_contains,
    samples_keys, print; simpl.
  destruct (h5 w !! file) as [[[m|]]|] eqn:Hf; simpl; rewrite ?Hf; simpl; try done.
  by rewrite Hf.
Qed.

(** C9. [list_samples] always returns: the empty list, with a notice,
    when the file does not exist or has no [samples] group; otherwise
    the keys of the [samples] group in the order the container
    enumerates them, which is the empty list for an empty group.  The
    keys listed are exactly the keys of the store, each once. *)
Theorem list_samples_total file w :
  ∃ w' keys,
    list_samples file w = (w', Ok keys) ∧
    h5 w' = h5 w ∧
    keys = (map_to_list (samples_of w file)).*1 ∧
    (h5 w !! file = None →
       keys = [] ∧ stdout w' = stdout w ++ ["No database found."]) ∧
    (∀ f, h5 w !! file = Some f → samples_grp f = None →
       keys = [] ∧ stdout w' = stdout w ++ ["No samples found in HDF5 file."]) ∧
    (samples_of w file = ∅ → keys = []) ∧
    NoDup keys ∧
    (∀ k, k ∈ keys ↔ is_Some (samples_of w file !! k)).
Proof.
  rewrite list_samples_unfold. unfold samples_of.
  assert (∀ m : gmap string Group,
    NoDup (map_to_list m).*1 ∧ ∀ k, k ∈ (map_to_list m).*1 ↔ is_Some (m !! k))
    as Henum.
  { intros m. split; [apply NoDup_fst_map_to_list|].
    intros k. rewrite list_elem_of_fmap. split.
    - intros ([k' g] & -> & Hin). apply elem_of_map_to_list in Hin. eauto.
    - intros [g Hg]. exists (k, g). split; [done|]. by apply elem_of_map_to_list. }
  destruct (h5 w !! file) as [[[m|]]|] eqn:Hf; simpl.
  - exists w, (map_to_list m).*1. split_and!; try done.
    + intros f [= <-]. done.
    + intros ->. by rewrite map_to_list_empty.
    + apply Henum.
    + apply Henum.
  - eexists _, []. split_and!; try done.
    all: try (by rewrite map_to_list_empty).
    all: try apply NoDup_nil_2.
    all: intros k; rewrite lookup_empty;
      split; [by intros ?%elem_of_nil|by intros [? ?]].
  - eexists _, []. split_and!; try done.
    all: try (by rewrite map_to_list_empty).
    all: try apply NoDup_nil_2.
    all: intros k; rewrite lookup_empty;
      split; [by intros ?%elem_of_nil|by intros [? ?]].
Qed.

(** ** Plotting *)

Lemma plot_sample_unfold file k handles w :
  plot_sample file k handles w =
  match samples_of w file !! k with
  | None => (put_stdout (warning k) w, Ok handles)
  | Some g =>
      match datasets g !! "Wavelengths" with
      | None => (w, Raise (KeyError "Wavelengths"))
      | Some x =>
          match datasets g !! "Absorption" with
          | None => (w, Raise (KeyError "Absorption"))
          | Some y =>
              if bool_decide (dlen x = dlen y)
              then (w, Ok (handles ++ [mkLine k x y]))
              else (w, Raise (ValueError "x and y must have same first dimension"))
          end
      end
  end.
Proof.
  unfold plot_sample. cbv zeta.
  unfold mbind at 1, M_bind at 1. rewrite h5_contains_sample_rel.
  destruct (samples_of w file !! k) as [g|] eqn:Hk.
  - rewrite bool_decide_eq_true_2 by eauto. cbn [negb].
    unfold mbind, M_bind, h5_open_group, read_dataset, get_group, ax_plot. simpl gname.
    rewrite resolve_rel. simpl gfile. rewrite Hk. simpl.
    change ("" +:+ k) with k. rewrite Hk. simpl.
    destruct (datasets g !! "Wavelengths") as [x|]; [|done]. rewrite Hk. simpl.
    destruct (datasets g !! "Absorption") as [y|]; [|done].
    by case_bool_decide.
  - rewrite bool_decide_eq_false_2 by (by intros [? ?]). done.
Qed.


Lemma plot_samples_unfold file selected w :
  plot_samples file selected w =
  match h5 w !! file with
  | None => (put_stdout "No database found." w, Ok None)
  | Some _ =>
      match for_each selected (plot_sample file) [] w with
      | (w1, Ok handles) => (w1, Ok (Some handles))
      | (w1, Raise e) => (w1, Raise e)
      end
  end.
Proof.
  unfold plot_samples, mbind, M_bind, path_exists, h5_open_read, print; simpl.
  destruct (h5 w !! file) as [f|] eqn:Hf; simpl; [|done]. by rewrite Hf.
Qed.


Lemma plot_loop_stored file selected handles w :
  (∀ k, k ∈ selected → is_Some (samples_of w file !! k)) →
  ∃ r, for_each selected (plot_sample file) handles w = (w, r) ∧
       ∀ lines, r = Ok lines → label <$> lines = (label <$> handles) ++ selected.
Proof.
  revert handles. induction selected as [|k selected IH]; intros handles Hall.
  - exists (Ok handles). split; [done|]. intros lines [= <-]. by rewrite app_nil_r.
  - cbn [for_each]. unfold mbind at 1, M_bind at 1. rewrite plot_sample_unfold.
    destruct (Hall k) as [g ->]; [by left|].
    destruct (datasets g !! "Wavelengths") as [x|]; [|by eexists].
    destruct (datasets g !! "Absorption") as [y|]; [|by eexists].
    case_bool_decide; [|by eexists].
    destruct (IH (handles ++ [mkLine k x y])) as (r & -> & Hr);
      [intros k' Hk'; apply Hall; by right|].
    exists r. split; [done|]. intros lines Hl. rewrite (Hr lines Hl).
    by rewrite fmap_app, <- app_assoc.
Qed.



(** ** The scenarios *)

Lemma scenario_link_names : batch_link_names (csv scenario) ["a.csv"].
Proof. apply (bool_decide_unpack _). vm_compute. exact I. Qed.


Lemma duplicate_rows_are_skipped_witness :
  (as7341_row "T2" !! "time" = Some (mkCell "T2" None) ∧
   is_Some (samples_of scenario "db.h5" !! "T2") ∧
   ingest_row "db.h5" (as7341_row "T2") ([], false) scenario
   = (put_stdout "Skipping duplicate sample: T2" scenario, Ok ([], false))) ∧
  (add_samples_from_csv ["a.csv"] "db.h5" "3" scenario
   = (ingested, Ok (["T1"; "T3"], true)) ∧
   samples_of ingested "db.h5" !! "T2" = samples_of scenario "db.h5" !! "T2" ∧
   ("T2" ∉ ["T1"; "T3"]) ∧
   batch_link_names (csv scenario) ["a.csv"] ∧
   size (samples_of ingested "db.h5") = size (samples_of scenario "db.h5") + 2 ∧
   ∃ w2, add_samples_from_csv ["a.csv"] "db.h5" "3" (set_stdin [] ingested)
         = (w2, Ok ([], false)) ∧
         samples_of w2 "db.h5" = samples_of ingested "db.h5").
Proof.
  assert (as7341_row "T2" !! "time" = Some (mkCell "T2" None)) as Htime
    by (vm_compute; reflexivity).
  assert (is_Some (samples_of scenario "db.h5" !! "T2")) as Hdup
    by (vm_compute; eauto).
  assert (add_samples_from_csv ["a.csv"] "db.h5" "3" scenario
          = (ingested, Ok (["T1"; "T3"], true))) as Hrun
    by (vm_compute; reflexivity).
  destruct duplicate_rows_are_skipped as [Hrow Hbatch].
  split.
  - split_and!; [done|done|].
    exact (Hrow "db.h5" (as7341_row "T2") _ ([], false) scenario Htime Hdup).
  - destruct (Hbatch _ _ _ _ _ _ Hrun) as (Hkeep & Hsize & Hagain).
    destruct Hdup as [g Hg]. destruct (Hkeep "T2" g Hg) as [Hsame Hnot].
    split_and!; [done|congruence|done|exact scenario_link_names
                |exact (Hsize scenario_link_names)|apply Hagain].
Defined.

Lemma scenario_run :
  add_samples_from_csv ["a.csv"] "db.h5" "3" scenario
  = (ingested, Ok (["T1"; "T3"], true)).
Proof. vm_compute. reflexivity. Qed.





Lemma other_data_types_ingest_nothing_witness :
  "2" ≠ "3" ∧
  ∃ w', add_samples_from_csv ["a.csv"] "db.h5" "2" scenario = (w', Ok ([], false)) ∧
        samples_of w' "db.h5" = samples_of scenario "db.h5" ∧
        stdout w' = stdout scenario ++ ((λ f, "Processing: " +:+ f) <$> ["a.csv"]).
Proof.
  assert ("2" ≠ "3") as Hty by done.
  split; [done|].
  exact (other_data_types_ingest_nothing ["a.csv"] "db.h5" "2" scenario Hty).
Defined.



(** C6 at the input where the code departs from it: the operator answers
    [y] and then presses Enter at the first key prompt.  No pair is
    written (the container is as it was) and [add_metadata] returns
    [True]. *)
Theorem add_metadata_true_without_pairs :
  ∃ w', add_metadata (mkRef "db.h5" "/samples/T1") accept_then_stop = (w', Ok true) ∧
        h5 w' = h5 accept_then_stop ∧
        stdin accept_then_stop = ["y"; ""] ∧
        stdin w' = [].
Proof. eexists. split_and!; vm_compute; reflexivity. Qed.

(** C7 at the input where the code departs from it: [plot_samples] on a
    key that [add_samples_from_csv] has just stored raises [KeyError]
    for [Absorption]; nothing of the sample is plotted. *)
Theorem plot_samples_fails_on_ingested_sample :
  add_samples_from_csv ["a.csv"] "db.h5" "3" scenario
  = (ingested, Ok (["T1"; "T3"], true)) ∧
  plot_samples "db.h5" ["T1"] ingested = (ingested, Raise (KeyError "Absorption")).
Proof. split; vm_compute; reflexivity. Qed.

(** The sibling path: [view_samples] shows the intensities of the same
    samples, and [plot_samples] plots a spectrophotometer sample. *)
Lemma view_samples_shows_intensities repr_array repr_dict :
  ∃ w', view_samples repr_array repr_dict "db.h5" ingested = (w', Ok tt) ∧
        ("Intensities: " +:+ repr_array (FloatData (replicate 5 1%Q)) +:+ " ...")
        ∈ stdout w'.
Proof.
  eexists. split; [vm_compute; reflexivity|].
  apply list_elem_of_In. vm_compute. tauto.
Qed.



(** * Further properties of the two scripts *)

(** * Further properties of the scripts *)

(** ** What is stored is what was read *)

Lemma RowRun_key file w row ev w' :
  RowRun file w row ev w' →
  ∃ k, row_key row = Some k ∧ is_Some (samples_of w' file !! k) ∧
       (ev = Skipped k ∧ is_Some (samples_of w file !! k) ∨
        ∃ b, ev = Inserted k b).
Proof.
  intros Hrun. destruct (RowRun_stored _ _ _ _ _ Hrun) as (time & Htime & Hin).
  exists (py_str time). unfold row_key. rewrite Htime. split_and!; [done|done|].
  destruct Hrun as [w row time' Htime' Hdup | w row time' signal w' b Htime' _ _ _ _];
    rewrite Htime in Htime'; injection Htime' as <-; eauto.
Qed.

Lemma RowRun_inserted file w row k b w' :
  RowRun file w row (Inserted k b) w' →
  row_key row = Some k ∧
  ∃ signal g, row_signal row = Some signal ∧
              samples_of w' file !! k = Some g ∧
              datasets g = datasets (core_group k signal).
Proof.
  inversion 1 as [|w0 row0 time signal w2 b0 Htime Hfresh Hcols Hcast Hmeta]; subst.
  unfold row_key. rewrite Htime. split; [done|].
  apply add_metadata_annotates in Hmeta.
  2:{ unfold write_sample. rewrite samples_of_set_samples, lookup_insert_eq. eauto. }
  destruct (write_annotate _ _ _ _ _ Hfresh Hmeta) as (_ & g & Hs & Hd & _).
  exists signal, g. split_and!; [done| |done].
  by rewrite samples_of_put_stdout, Hs, lookup_insert_eq.
Qed.

Lemma RowsRun_first file w rows evs w' k :
  RowsRun file w rows evs w' →
  k ∈ inserted_keys evs →
  ∃ row signal g, first_row k rows = Some row ∧
                  row_signal row = Some signal ∧
                  samples_of w' file !! k = Some g ∧
                  datasets g = datasets (core_group k signal).
Proof.
  induction 1 as [w|w row ev w1 rows evs w2 Hrow Hrows IH]; [by intros ?%elem_of_nil|].
  intros Hin. pose proof (RowsRun_grows _ _ _ _ _ Hrows) as (_ & _ & Hfresh).
  pose proof (RowsRun_extends _ _ _ _ _ Hrows) as (_ & Hkeep & _).
  destruct ev as [k0|k0 b].
  - destruct (RowRun_key _ _ _ _ _ Hrow) as (k1 & Hkey & Hstored & [[[= <-] _]|[b [=]]]).
    change (k ∈ inserted_keys evs) in Hin.
    destruct (IH Hin) as (row' & signal & g & Hfirst & Hsig & Hg & Hd).
    exists row', signal, g. split_and!; try done.
    cbn [first_row]. rewrite bool_decide_eq_false_2; [done|].
    rewrite Hkey. intros [= ->]. apply Hfresh in Hin.
    destruct Hstored as [? Hs]. congruence.
  - destruct (RowRun_inserted _ _ _ _ _ _ Hrow) as (Hkey & signal & g & Hsig & Hg & Hd).
    destruct (decide (k = k0)) as [->|Hne].
    + exists row, signal, g. split_and!; try done.
      * cbn [first_row]. by rewrite bool_decide_eq_true_2.
      * by apply Hkeep.
    + change (k ∈ k0 :: inserted_keys evs) in Hin.
      apply elem_of_cons in Hin as [?|Hin]; [done|].
      destruct (IH Hin) as (row' & signal' & g' & Hfirst & Hsig' & Hg' & Hd').
      exists row', signal', g'. split_and!; try done.
      cbn [first_row]. rewrite bool_decide_eq_false_2; [done|].
      rewrite Hkey. by intros [= ->].
Qed.

Lemma first_row_app_l k rows rows' row :
  first_row k rows = Some row → first_row k (rows ++ rows') = Some row.
Proof.
  induction rows as [|r rows IH]; [done|]. cbn [first_row app].
  by case_bool_decide.
Qed.

Lemma first_row_app_r k rows rows' :
  Forall (λ row, row_key row ≠ Some k) rows →
  first_row k (rows ++ rows') = first_row k rows'.
Proof.
  induction 1 as [|r rows Hr Hrows IH]; [done|]. cbn [first_row app].
  by rewrite bool_decide_eq_false_2.
Qed.

Lemma BatchRun_first file w csv_files evs w' k :
  BatchRun file w csv_files evs w' →
  k ∈ inserted_keys evs →
  ∃ row signal g, first_row k (batch_rows (csv w) csv_files) = Some row ∧
                  row_signal row = Some signal ∧
                  samples_of w' file !! k = Some g ∧
                  datasets g = datasets (core_group k signal).
Proof.
  induction 1 as [w|w csv_file df evs1 w1 csv_files evs2 w2 Hcsv Hrows Hrest IH];
    [by intros ?%elem_of_nil|].
  rewrite inserted_keys_app. intros Hin.
  pose proof (RowsRun_extends _ _ _ _ _ Hrows) as (Hc & _ & _). simpl in Hc.
  pose proof (BatchRun_extends _ _ _ _ _ Hrest) as (_ & Hkeep & _).
  pose proof (BatchRun_grows _ _ _ _ _ Hrest) as (_ & _ & Hfresh).
  change (batch_rows (csv w) (csv_file :: csv_files))
    with (default [] (csv w !! csv_file) ++ batch_rows (csv w) csv_files).
  unfold DataFrame in *. rewrite Hcsv. cbn [default].
  destruct (decide (k ∈ inserted_keys evs1)) as [Hin1|Hnin1].
  - destruct (RowsRun_first _ _ _ _ _ _ Hrows Hin1) as (row & signal & g & Hf & Hs & Hg & Hd).
    exists row, signal, g. split_and!; try done.
    + by apply first_row_app_l.
    + by apply Hkeep.
  - apply elem_of_app in Hin as [?|Hin2]; [done|].
    destruct (IH Hin2) as (row & signal & g & Hf & Hs & Hg & Hd).
    exists row, signal, g. split_and!; try done.
    rewrite first_row_app_r; [by rewrite <- Hc|].
    apply RowsRun_stored in Hrows. revert Hrows. apply Forall_impl.
    intros r (time & Htime & [g0 Hg0]). unfold row_key. rewrite Htime. simpl.
    intros [= <-]. apply Hfresh in Hin2. congruence.
Qed.

(** X1. Every key a returned call reports as inserted is stored with
    the wavelength table and with the ten channel values, cast to
    float, of the first row of the batch that has this key; reading the
    two datasets back gives these arrays. *)
Theorem ingested_data_reads_back csv_files file w w' keys flag k :
  add_samples_from_csv csv_files file "3" w = (w', Ok (keys, flag)) →
  k ∈ keys →
  ∃ row signal,
    first_row k (batch_rows (csv w) csv_files) = Some row ∧
    row_signal row = Some signal ∧
    read_dataset (mkRef file ("samples/" +:+ k)) "Wavelengths" w'
    = (w', Ok (IntData AS7341_WAVELENGTHS)) ∧
    read_dataset (mkRef file ("samples/" +:+ k)) "Intensities" w'
    = (w', Ok (FloatData signal)).
Proof.
  intros Hrun Hin.
  apply add_samples_from_csv_run in Hrun as (evs & Hevs & -> & ->).
  destruct (BatchRun_first _ _ _ _ _ _ Hevs Hin) as (row & signal & g & Hf & Hs & Hg & Hd).
  rewrite csv_opened in Hf. exists row, signal. split_and!; [done|done|..].
  all: unfold read_dataset, get_group; simpl gname; rewrite resolve_rel; simpl gfile.
  all: rewrite Hg; simpl; rewrite Hd; simpl.
  - by rewrite lookup_insert_ne, lookup_insert_eq.
  - by rewrite lookup_insert_eq.
Qed.

(** ** Where a batch stops *)

(** A batch that has run up to a row stops the way that row does. *)
Lemma batch_stops_at_row
    files1 f files2 pre row post file w w0 acc0 w1 acc1 w2 e :
  for_each files1 (ingest_file file "3") ([], false) (opened file w) = (w0, Ok acc0) →
  csv w0 !! f = Some (pre ++ row :: post) →
  for_each pre (ingest_row file) acc0 (put_stdout ("Processing: " +:+ f) w0)
  = (w1, Ok acc1) →
  ingest_row file row acc1 w1 = (w2, Raise e) →
  add_samples_from_csv (files1 ++ f :: files2) file "3" w = (w2, Raise e).
Proof.
  intros Hfiles Hcsv Hpre Hrow.
  rewrite add_samples_from_csv_unfold, for_each_app.
  erewrite bind_ok by exact Hfiles.
  cbn [for_each]. apply bind_raise.
  rewrite ingest_file_unfold. cbv zeta.
  rewrite bool_decide_eq_true_2 by done. rewrite Hcsv, for_each_app.
  erewrite bind_ok by exact Hpre.
  cbn [for_each]. by apply bind_raise.
Qed.

(** X2. When the batch has run up to a row that has its timestamp, a
    link name that is not stored yet, and all ten channels, and one of
    whose channel values does not cast to float, the call raises
    [ValueError] to the caller and the world is the one reached just
    before that row: no group was created for it. *)
Theorem non_numeric_cell_aborts_batch
    files1 f files2 pre row post file w w0 acc0 w1 acc1 k :
  for_each files1 (ingest_file file "3") ([], false) (opened file w) = (w0, Ok acc0) →
  csv w0 !! f = Some (pre ++ row :: post) →
  for_each pre (ingest_row file) acc0 (put_stdout ("Processing: " +:+ f) w0)
  = (w1, Ok acc1) →
  row_key row = Some k →
  link_name k →
  samples_of w1 file !! k = None →
  missing_column row AS7341_COLUMNS = None →
  row_signal row = None →
  ∃ message,
    add_samples_from_csv (files1 ++ f :: files2) file "3" w
    = (w1, Raise (ValueError message)).
Proof.
  intros Hfiles Hcsv Hpre Hkey _ Hfresh Hcols Hsig.
  eexists. eapply batch_stops_at_row; [done..|].
  destruct acc1 as [added updates]. rewrite ingest_row_unfold.
  unfold row_key in Hkey. destruct (row !! "time") as [time|]; [|done].
  injection Hkey as <-. cbv zeta.
  rewrite bool_decide_eq_false_2 by (rewrite Hfresh; by intros [? ?]).
  unfold row_signal in Hsig. by rewrite Hcols, Hsig.
Qed.

(** X3. When the batch has run up to a CSV file that does not exist,
    the call prints the [Processing] line for it and raises
    [FileNotFoundError] to the caller; the files after it are not
    read. *)
Theorem missing_csv_file_aborts_batch files1 f files2 file w w0 acc0 :
  for_each files1 (ingest_file file "3") ([], false) (opened file w) = (w0, Ok acc0) →
  csv w0 !! f = None →
  add_samples_from_csv (files1 ++ f :: files2) file "3" w
  = (put_stdout ("Processing: " +:+ f) w0, Raise (FileNotFoundError f)).
Proof.
  intros Hfiles Hcsv.
  rewrite add_samples_from_csv_unfold, for_each_app.
  erewrite bind_ok by exact Hfiles.
  cbn [for_each]. apply bind_raise.
  rewrite ingest_file_unfold. cbv zeta.
  rewrite bool_decide_eq_true_2 by done.
  unfold DataFrame in *. by rewrite Hcsv.
Qed.


(** ** Files listed more than once *)

(** X5. Listing files of the batch again at its end changes nothing of
    what a returned call gives: the same inserted keys, the same
    metadata flag and the same container; the rows read again are all
    skipped and nothing is read from the console for them. *)
Theorem relisted_files_insert_nothing csv_files again file w w1 keys flag :
  add_samples_from_csv csv_files file "3" w = (w1, Ok (keys, flag)) →
  (∀ f, f ∈ again → f ∈ csv_files) →
  ∃ w2,
    add_samples_from_csv (csv_files ++ again) file "3" w = (w2, Ok (keys, flag)) ∧
    h5 w2 = h5 w1 ∧ stdin w2 = stdin w1.
Proof.
  intros Hrun Hsub.
  pose proof (add_samples_from_csv_extends _ _ _ _ _ _ Hrun) as (Hcsv & _).
  pose proof Hrun as Hev.
  apply add_samples_from_csv_run in Hev as (evs & Hevs & _).
  apply BatchRun_stored in Hevs. rewrite csv_opened, <- Hcsv in Hevs.
  rewrite add_samples_from_csv_unfold in Hrun.
  rewrite add_samples_from_csv_unfold, for_each_app.
  erewrite bind_ok by exact Hrun.
  destruct (rerun_files file again (keys, flag) w1) as (w2 & Hrun2 & Hh & _ & Hi).
  - unfold all_stored in *. apply list.Forall_forall. intros f Hf.
    apply Hsub in Hf. by eapply list.Forall_forall in Hevs.
  - by exists w2.
Qed.

(** ** Listing after ingestion *)

(** X6. After a call that returns, on a batch whose timestamps are
    link names, [list_samples] lists what it listed before together
    with the inserted keys, each once, in the order the container
    enumerates them. *)
Theorem listing_after_ingestion csv_files file w w1 keys flag :
  batch_link_names (csv w) csv_files →
  add_samples_from_csv csv_files file "3" w = (w1, Ok (keys, flag)) →
  ∃ v v1 before after,
    list_samples file w = (v, Ok before) ∧
    list_samples file w1 = (v1, Ok after) ∧
    after ≡ₚ before ++ keys.
Proof.
  intros _ Hrun.
  apply add_samples_from_csv_run in Hrun as (evs & Hevs & -> & _).
  pose proof (BatchRun_grows _ _ _ _ _ Hevs) as Hgrows.
  rewrite samples_of_opened in Hgrows.
  assert (∀ u, ∃ u', list_samples file u
                     = (u', Ok (map_to_list (samples_of u file)).*1)) as Hlist.
  { intros u. rewrite list_samples_unfold. unfold samples_of.
    destruct (h5 u !! file) as [[[m|]]|]; simpl; rewrite ?map_to_list_empty; eauto. }
  destruct (Hlist w) as (v & Hv). destruct (Hlist w1) as (v1 & Hv1).
  eexists v, v1, _, _. split_and!; [done|done|].
  destruct Hgrows as (Hd & Hn & Hf).
  apply NoDup_Permutation.
  - apply NoDup_fst_map_to_list.
  - apply list.NoDup_app. split_and!; [apply NoDup_fst_map_to_list| |done].
    intros k Hk Hk'. apply Hf in Hk'.
    apply list_elem_of_fmap in Hk as ([k0 g] & -> & Hk).
    apply elem_of_map_to_list in Hk. simpl in Hk'. congruence.
  - intros k. rewrite elem_of_app.
    assert (∀ m : gmap string Group, k ∈ (map_to_list m).*1 ↔ k ∈ dom m) as Hdom.
    { intros m. rewrite elem_of_dom, list_elem_of_fmap. split.
      - intros ([k' g] & -> & Hin). apply elem_of_map_to_list in Hin. eauto.
      - intros [g Hg]. exists (k, g). split; [done|]. by apply elem_of_map_to_list. }
    rewrite !Hdom, Hd, elem_of_union, elem_of_list_to_set. done.
Qed.

(** ** The metadata dialogue *)

(** X7. [add_metadata] changes nothing in the container but the
    attributes of its own sample group, whatever is typed and however
    the call ends: the datasets of that group and all other groups are
    as before, and no attribute of the group is removed. *)
Theorem add_metadata_changes_attributes_only file k w w' r :
  is_Some (samples_of w file !! k) →
  add_metadata (mkRef file ("/samples/" +:+ k)) w = (w', r) →
  csv w' = csv w ∧
  (∀ k', k' ≠ k → samples_of w' file !! k' = samples_of w file !! k') ∧
  ∃ g g', samples_of w file !! k = Some g ∧
          samples_of w' file !! k = Some g' ∧
          datasets g' = datasets g ∧
          dom (attrs g) ⊆ dom (attrs g').
Proof.
  intros Hk Hrun.
  destruct (add_metadata_annotates _ _ _ _ _ Hk Hrun) as (Hcsv & g & g' & Hg & Hs & Hd & Ha).
  split_and!; [done| |].
  - intros k' Hne. by rewrite Hs, lookup_insert_ne.
  - exists g, g'. split_and!; try done. by rewrite Hs, lookup_insert_eq.
Qed.

Lemma samples_of_set_stdin l w file :
  samples_of (set_stdin l w) file = samples_of w file.
Proof. reflexivity. Qed.

Lemma attrs_set_run file k name value w g :
  samples_of w file !! k = Some g →
  attrs_set (mkRef file ("/samples/" +:+ k)) name value w
  = (set_samples file
       (<[k := mkGroup (datasets g) (<[name := value]> (attrs g))]> (samples_of w file)) w,
     Ok tt).
Proof.
  intros Hg. unfold attrs_set, get_group, put_group; simpl gname; simpl gfile.
  by rewrite resolve_abs, Hg.
Qed.

Lemma metadata_loop_pairs file k pairs stop rest turns w g :
  samples_of w file !! k = Some g →
  stdin w = pair_lines pairs ++ stop :: rest →
  Forall (λ p, PyStr.strip p.1 ≠ "") pairs →
  PyStr.strip stop = "" →
  (length (stdin w) ≤ length turns)%nat →
  ∃ w', metadata_loop (mkRef file ("/samples/" +:+ k)) turns w = (w', Ok tt) ∧
        stdin w' = rest ∧ csv w' = csv w ∧
        samples_of w' file
        = <[k := mkGroup (datasets g) (enter_pairs pairs (attrs g))]> (samples_of w file).
Proof.
  intros Hg Hin Hkeys Hstop. revert turns w g Hg Hin.
  induction Hkeys as [|[a b] pairs Ha Hpairs IH]; intros turns w g Hg Hin Hlen.
  - rewrite metadata_loop_unfold, Hin. cbn [pair_lines mbind list_bind app]. cbv zeta.
    rewrite bool_decide_eq_true_2 by done.
    eexists. split_and!; [done|done|done|].
    rewrite samples_of_set_stdin, samples_of_put_stdout. symmetry.
    apply insert_id. by destruct g.
  - change (pair_lines ((a, b) :: pairs)) with (a :: b :: pair_lines pairs) in Hin.
    rewrite Hin in Hlen. destruct turns as [|t turns]; [simpl in Hlen; lia|].
    rewrite metadata_loop_unfold, Hin. cbn [app]. cbv zeta.
    simpl in Ha. rewrite bool_decide_eq_false_2 by done.
    erewrite attrs_set_run by (rewrite samples_of_set_stdin, samples_of_put_stdout,
      samples_of_set_stdin, samples_of_put_stdout; exact Hg).
    match goal with
    | |- ∃ w', metadata_loop _ _ ?w4 = _ ∧ _ =>
        destruct (IH turns w4
                    (mkGroup (datasets g) (<[PyStr.strip a := PyStr.strip b]> (attrs g))))
          as (w' & Hrun & Hin' & Hcsv' & Hs')
    end.
    + rewrite samples_of_put_stdout, samples_of_set_samples. apply lookup_insert_eq.
    + reflexivity.
    + simpl. simpl in Hlen. lia.
    + exists w'. split_and!; [done|done|done|].
      rewrite Hs', samples_of_put_stdout, samples_of_set_samples.
      rewrite samples_of_set_stdin, samples_of_put_stdout,
        samples_of_set_stdin, samples_of_put_stdout.
      by rewrite insert_insert_eq.
Qed.

(** X8. When the operator answers [y], enters pairs with non-blank keys
    and then an empty key, [add_metadata] returns [True], the console
    is read up to and including the empty key, and the attributes of
    the group are the old ones updated with the stripped pairs in the
    order entered: a later entry for a key replaces an earlier one and
    any attribute already there, [Timestamp] included. *)
Theorem add_metadata_writes_entered_pairs file k w g answer pairs stop rest :
  samples_of w file !! k = Some g →
  stdin w = answer :: pair_lines pairs ++ stop :: rest →
  PyStr.lower (PyStr.strip answer) = "y" →
  Forall (λ p, PyStr.strip p.1 ≠ "") pairs →
  PyStr.strip stop = "" →
  ∃ w', add_metadata (mkRef file ("/samples/" +:+ k)) w = (w', Ok true) ∧
        stdin w' = rest ∧
        samples_of w' file
        = <[k := mkGroup (datasets g) (enter_pairs pairs (attrs g))]> (samples_of w file).
Proof.
  intros Hg Hin Hy Hkeys Hstop.
  unfold add_metadata. unfold mbind at 1, M_bind at 1, fmap, M_fmap, input.
  simpl. rewrite Hin. simpl. rewrite Hy. rewrite bool_decide_eq_true_2 by done.
  unfold mbind, M_bind, pending_input. cbn [stdin set_stdin].
  match goal with
  | |- ∃ w', match metadata_loop ?r ?t ?w0 with _ => _ end = _ ∧ _ =>
      destruct (metadata_loop_pairs file k pairs stop rest t w0 g)
        as (w' & Hrun & Hin' & _ & Hs'); [done|done|done|done|done|]
  end.
  exists w'. rewrite Hrun. split_and!; done.
Qed.

(** ** Viewing the container *)

Lemma only_prints_refl w : only_prints w w.
Proof. done. Qed.

Lemma only_prints_trans w1 w2 w3 :
  only_prints w1 w2 → only_prints w2 w3 → only_prints w1 w3.
Proof. intros (? & ? & ?) (? & ? & ?). split_and!; congruence. Qed.

Lemma only_prints_put_stdout s w : only_prints w (put_stdout s w).
Proof. done. Qed.

Lemma only_prints_samples w w' file :
  only_prints w w' → samples_of w' file = samples_of w file.
Proof. intros (Hh & _). by apply samples_of_h5. Qed.

Lemma print_run s w : print s w = (put_stdout s w, Ok tt).
Proof. done. Qed.

Lemma get_group_rel file k w :
  get_group (mkRef file ("samples/" +:+ k)) w = samples_of w file !! k.
Proof. reflexivity. Qed.

Section ViewSamplesFacts.
Variable repr_array : Dataset → string.
Variable repr_dict : gmap string string → string.

Lemma show_dataset_prints file k name w g :
  samples_of w file !! k = Some g →
  ∃ w', show_dataset repr_array (mkRef file ("samples/" +:+ k)) name w = (w', Ok tt) ∧
        only_prints w w'.
Proof.
  intros Hg. unfold show_dataset, mbind, M_bind, group_contains, read_dataset.
  rewrite !get_group_rel, Hg. simpl.
  destruct (datasets g !! name) as [d|] eqn:Hd.
  - rewrite bool_decide_eq_true_2 by eauto.
    rewrite get_group_rel, Hg. simpl. rewrite Hd.
    eexists. split; [reflexivity|done].
  - rewrite bool_decide_eq_false_2 by (by intros [? ?]).
    eexists. split; [reflexivity|done].
Qed.

Lemma view_sample_prints file k w g ts :
  samples_of w file !! k = Some g →
  attrs g !! "Timestamp" = Some ts →
  ∃ w', view_sample repr_array repr_dict file k tt w = (w', Ok tt) ∧ only_prints w w'.
Proof.
  intros Hg Hts. unfold view_sample.
  unfold mbind at 1, M_bind at 1, h5_open_group. rewrite get_group_rel, Hg.
  unfold mbind at 1, M_bind at 1, read_attrs. rewrite get_group_rel, Hg, Hts.
  unfold mbind at 1, M_bind at 1. rewrite print_run.
  set (w1 := put_stdout _ w).
  assert (samples_of w1 file !! k = Some g) as Hg1 by done.
  destruct (show_dataset_prints file k "Wavelengths" w1 g Hg1) as (w2 & Hrun2 & Hp2).
  unfold mbind at 1, M_bind at 1. rewrite Hrun2.
  assert (samples_of w2 file !! k = Some g) as Hg2
    by (by rewrite (only_prints_samples _ _ _ Hp2)).
  unfold mbind at 1, M_bind at 1, group_contains at 1. rewrite get_group_rel, Hg2.
  unfold mbind at 1, M_bind at 1, group_contains at 1. rewrite get_group_rel, Hg2.
  assert (∃ w3, (if bool_decide (is_Some (datasets g !! "Absorption"))
                     && bool_decide (is_Some (datasets g !! "Transmission"))
                 then
                   absorption ← read_dataset (mkRef file ("samples/" +:+ k)) "Absorption";
                   transmission ← read_dataset (mkRef file ("samples/" +:+ k)) "Transmission";
                   print ("Absorption: " +:+ repr_array (dtake 5 absorption) +:+ " ...");;
                   print ("Transmission: " +:+ repr_array (dtake 5 transmission) +:+ " ...")
                 else mret tt) w2 = (w3, Ok tt) ∧ only_prints w2 w3) as (w3 & Hrun3 & Hp3).
  { destruct (datasets g !! "Absorption") as [a|] eqn:Ha;
      [|rewrite (bool_decide_eq_false_2 (is_Some None)) by (by intros [? ?]);
        by exists w2].
    destruct (datasets g !! "Transmission") as [t|] eqn:Ht;
      [|rewrite (bool_decide_eq_false_2 (is_Some None)) by (by intros [? ?]);
        rewrite andb_false_r; by exists w2].
    rewrite !bool_decide_eq_true_2 by eauto. cbn [andb].
    unfold mbind, M_bind, read_dataset.
    rewrite get_group_rel, Hg2. simpl. rewrite Ha.
    rewrite get_group_rel, Hg2. simpl. rewrite Ht.
    eexists. split; [reflexivity|done]. }
  unfold mbind at 1, M_bind at 1. rewrite Hrun3.
  assert (samples_of w3 file !! k = Some g) as Hg3
    by (by rewrite (only_prints_samples _ _ _ Hp3)).
  destruct (show_dataset_prints file k "Intensities" w3 g Hg3) as (w4 & Hrun4 & Hp4).
  unfold mbind at 1, M_bind at 1. rewrite Hrun4. rewrite print_run.
  eexists. split; [reflexivity|].
  eapply only_prints_trans; [|apply only_prints_put_stdout].
  eapply only_prints_trans; [|exact Hp4].
  eapply only_prints_trans; [|exact Hp3].
  eapply only_prints_trans; [|exact Hp2]. done.
Qed.

Lemma view_sample_no_timestamp file k w g :
  samples_of w file !! k = Some g →
  attrs g !! "Timestamp" = None →
  view_sample repr_array repr_dict file k tt w = (w, Raise (KeyError "Timestamp")).
Proof.
  intros Hg Hts. unfold view_sample.
  unfold mbind at 1, M_bind at 1, h5_open_group. rewrite get_group_rel, Hg.
  unfold mbind at 1, M_bind at 1, read_attrs. by rewrite get_group_rel, Hg, Hts.
Qed.

Lemma view_loop file (S : gmap string Group) keys w :
  samples_of w file = S →
  Forall (λ k, is_Some (S !! k)) keys →
  ∃ w' r,
    for_each keys (view_sample repr_array repr_dict file) tt w = (w', r) ∧
    only_prints w w' ∧
    ((r = Ok tt ∧
      Forall (λ k, ∃ g, S !! k = Some g ∧ is_Some (attrs g !! "Timestamp")) keys) ∨
     (r = Raise (KeyError "Timestamp") ∧
      Exists (λ k, ∃ g, S !! k = Some g ∧ attrs g !! "Timestamp" = None) keys)).
Proof.
  intros HS Hall. revert w HS.
  induction Hall as [|k keys [g Hg] Hkeys IH]; intros w HS.
  - exists w, (Ok tt). split_and!; [done|done|]. left. by split.
  - cbn [for_each]. unfold mbind, M_bind.
    destruct (attrs g !! "Timestamp") as [ts|] eqn:Hts.
    + destruct (view_sample_prints file k w g ts) as (w1 & Hrun & Hp);
        [by rewrite HS|done|].
      rewrite Hrun.
      destruct (IH w1) as (w' & r & Hrun' & Hp' & Hres);
        [by rewrite (only_prints_samples _ _ _ Hp)|].
      exists w', r. split_and!; [done|by eapply only_prints_trans|].
      destruct Hres as [[-> Hts']|[-> Hno]].
      * left. split; [done|]. constructor; [|done]. exists g. eauto.
      * right. split; [done|]. by apply Exists_cons_tl.
    + rewrite (view_sample_no_timestamp file k w g) by (by rewrite ?HS).
      exists w, (Raise (KeyError "Timestamp")). split_and!; [done|done|].
      right. split; [done|]. apply Exists_cons_hd. eauto.
Qed.

Lemma print_keys_loop keys w :
  ∃ w', for_each keys (λ sample (_ : unit), print (" - " +:+ sample)) tt w = (w', Ok tt) ∧
        only_prints w w'.
Proof.
  revert w. induction keys as [|k keys IH]; intros w; [by exists w|].
  cbn [for_each]. unfold mbind, M_bind. rewrite print_run.
  destruct (IH (put_stdout (" - " +:+ k) w)) as (w' & Hrun & Hp).
  exists w'. split; [done|].
  eapply only_prints_trans; [apply only_prints_put_stdout|exact Hp].
Qed.

(** [view_samples] only prints, and it ends either normally or by
    [KeyError] for [Timestamp]; it ends normally exactly when every
    sample group of the container has a [Timestamp] attribute. *)
Lemma view_samples_outcome file w :
  ∃ w' r,
    view_samples repr_array repr_dict file w = (w', r) ∧
    only_prints w w' ∧
    (r = Ok tt ∨ r = Raise (KeyError "Timestamp")) ∧
    (r = Ok tt ↔
     ∀ k g, samples_of w file !! k = Some g → is_Some (attrs g !! "Timestamp")).
Proof.
  unfold view_samples, mbind at 1, M_bind at 1, path_exists.
  destruct (h5 w !! file) as [f|] eqn:Hf.
  2:{ rewrite bool_decide_eq_false_2 by (by intros [? ?]). cbn [negb].
      eexists _, _. split_and!; [apply print_run|done|by left|].
      split; [|done]. intros _ k g. unfold samples_of. rewrite Hf.
      by rewrite lookup_empty. }
  rewrite bool_decide_eq_true_2 by eauto. cbn [negb].
  unfold mbind at 1, M_bind at 1, h5_open_read. rewrite Hf.
  unfold mbind at 1, M_bind at 1, h5_contains. simpl. rewrite Hf. simpl.
  destruct (samples_grp f) as [m|] eqn:Hm; cbn [negb].
  2:{ eexists _, _. split_and!; [apply print_run|done|by left|].
      split; [|done]. intros _ k g. unfold samples_of. rewrite Hf, Hm. simpl.
      by rewrite lookup_empty. }
  assert (samples_of w file = m) as HS by (unfold samples_of; by rewrite Hf, Hm).
  unfold mbind at 1, M_bind at 1. rewrite print_run.
  unfold mbind at 1, M_bind at 1, samples_keys at 1. simpl. rewrite Hf. simpl. rewrite Hm.
  unfold mbind at 1, M_bind at 1.
  destruct (print_keys_loop (map_to_list m).*1 (put_stdout (nl +:+ "Available Timestamps:") w))
    as (w1 & Hrun1 & Hp1).
  rewrite Hrun1.
  assert (h5 w1 !! file = Some f) as Hf1 by (destruct Hp1 as (-> & _); done).
  unfold mbind at 1, M_bind at 1, samples_keys. rewrite Hf1. simpl. rewrite Hm.
  destruct (view_loop file m (map_to_list m).*1 w1) as (w' & r & Hrun & Hp & Hres).
  { rewrite (only_prints_samples _ _ _ Hp1). done. }
  { apply list.Forall_forall. intros k Hk.
    apply list_elem_of_fmap in Hk as ([k' g] & -> & Hk).
    apply elem_of_map_to_list in Hk. eauto. }
  exists w', r. split_and!; [done| | |].
  - eapply only_prints_trans; [|exact Hp].
    eapply only_prints_trans; [|exact Hp1]. done.
  - destruct Hres as [[-> _]|[-> _]]; eauto.
  - rewrite HS. destruct Hres as [[-> Hall]|[-> Hex]].
    + split; [|done]. intros _ k g Hg.
      assert (k ∈ (map_to_list m).*1) as Hk.
      { apply list_elem_of_fmap. exists (k, g). split; [done|].
        by apply elem_of_map_to_list. }
      destruct (proj1 (list.Forall_forall _ _) Hall k Hk) as (g' & Hg' & Hts).
      by replace g with g' by congruence.
    + split; [done|]. intros Hall. exfalso.
      apply list.Exists_exists in Hex as (k & _ & g & Hg & Hts).
      destruct (Hall k g Hg) as [ts Hts']. congruence.
Qed.
End ViewSamplesFacts.

(** X9. [view_samples] never writes: it leaves the container, the CSV
    files and the console input as they are.  It ends normally or by
    [KeyError] for [Timestamp], and it ends normally exactly when every
    sample group has a [Timestamp] attribute. *)
Theorem view_samples_needs_timestamps repr_array repr_dict file w :
  ∃ w' r,
    view_samples repr_array repr_dict file w = (w', r) ∧
    h5 w' = h5 w ∧ csv w' = csv w ∧ stdin w' = stdin w ∧
    (r = Ok tt ∨ r = Raise (KeyError "Timestamp")) ∧
    (r = Ok tt ↔
     ∀ k g, samples_of w file !! k = Some g → is_Some (attrs g !! "Timestamp")).
Proof.
  destruct (view_samples_outcome repr_array repr_dict file w)
    as (w' & r & Hrun & (Hh & Hc & Hi) & Hcases & Hiff).
  exists w', r. by split_and!.
Qed.

(** X10. If every sample group has a [Timestamp] attribute, then
    after [add_samples_from_csv] on a batch whose timestamps are link
    names, however it ended, every sample group still has one, so that
    [view_samples] on the updated container ends normally. *)
Theorem view_after_ingestion repr_array repr_dict csv_files file data_type w w1 r :
  (∀ k g, samples_of w file !! k = Some g → is_Some (attrs g !! "Timestamp")) →
  batch_link_names (csv w) csv_files →
  add_samples_from_csv csv_files file data_type w = (w1, r) →
  ∃ w2, view_samples repr_array repr_dict file w1 = (w2, Ok tt) ∧ h5 w2 = h5 w1.
Proof.
  intros Hts _ Hrun.
  apply add_samples_from_csv_extends in Hrun as (_ & Hkeep & Hnew).
  destruct (view_samples_outcome repr_array repr_dict file w1)
    as (w2 & r2 & Hrun2 & (Hh & _) & _ & Hiff).
  exists w2. split; [|done]. rewrite Hrun2. f_equal. apply Hiff.
  intros k g Hg. destruct (samples_of w file !! k) as [g0|] eqn:Hold.
  - pose proof (Hkeep _ _ Hold) as Hg'. rewrite Hg in Hg'. injection Hg' as ->.
    by eapply Hts.
  - by destruct (Hnew k g Hg Hold) as (_ & _ & ?).
Qed.

(** ** Collecting the CSV files *)

Section CollectFacts.
Variable isdir isfile : string → bool.
Variable glob_csv : string → list string.

Lemma collect_item_run item acc w :
  collect_item isdir isfile glob_csv item acc w
  = (if decide (rejected isdir isfile item)
     then put_stdout (skip_notice item) w else w,
     Ok (acc ++ accepted isdir isfile glob_csv item)).
Proof.
  unfold collect_item, accepted.
  destruct (decide (rejected isdir isfile item)) as [[Hd Hf]|Hn].
  - rewrite Hd, Hf. unfold mbind, M_bind. rewrite print_run.
    by rewrite app_nil_r.
  - destruct (isdir item) eqn:Hd; [done|].
    destruct (isfile item && py_endswith item ".csv") eqn:Hf; [done|].
    by destruct Hn.
Qed.

Lemma collect_loop inputs acc w :
  ∃ w', for_each inputs (collect_item isdir isfile glob_csv) acc w
        = (w', Ok (acc ++ (inputs ≫= accepted isdir isfile glob_csv))) ∧
        only_prints w w' ∧
        stdout w' = stdout w ++ (skip_notice <$> filter (rejected isdir isfile) inputs).
Proof.
  revert acc w. induction inputs as [|item inputs IH]; intros acc w.
  - exists w. cbn. by rewrite !app_nil_r.
  - cbn [for_each]. unfold mbind at 1, M_bind at 1.
    rewrite collect_item_run.
    change ((item :: inputs) ≫= accepted isdir isfile glob_csv)
      with (accepted isdir isfile glob_csv item
            ++ (inputs ≫= accepted isdir isfile glob_csv)).
    rewrite filter_cons.
    destruct (decide (rejected isdir isfile item)) as [Hr|Hn].
    + destruct (IH (acc ++ accepted isdir isfile glob_csv item)
                   (put_stdout (skip_notice item) w)) as (w' & Hrun & Hp & Ho).
      exists w'. rewrite Hrun. split_and!.
      * by rewrite <- app_assoc.
      * eapply only_prints_trans; [apply only_prints_put_stdout|exact Hp].
      * rewrite Ho. simpl. by rewrite <- app_assoc.
    + destruct (IH (acc ++ accepted isdir isfile glob_csv item) w)
        as (w' & Hrun & Hp & Ho).
      exists w'. rewrite Hrun. by rewrite <- app_assoc.
Qed.
End CollectFacts.

(** X11. [collect_csv_files] always returns and only prints.  It
    returns, in the order of the inputs and without removing repeats,
    the [*.csv] files of each input that is a directory and each input
    that is a file whose name ends in [.csv]; for every other input it
    prints one [Skipping] notice, in order. *)
Theorem collect_csv_files_takes_and_skips isdir isfile glob_csv inputs w :
  ∃ w',
    collect_csv_files isdir isfile glob_csv inputs w
    = (w', Ok (inputs ≫= accepted isdir isfile glob_csv)) ∧
    h5 w' = h5 w ∧ csv w' = csv w ∧ stdin w' = stdin w ∧
    stdout w' = stdout w ++ (skip_notice <$> filter (rejected isdir isfile) inputs).
Proof.
  destruct (collect_loop isdir isfile glob_csv inputs [] w) as (w' & Hrun & (? & ? & ?) & Ho).
  exists w'. by split_and!.
Qed.

(** ** Pushing after ingestion *)

Lemma ingest_row_keeps_file file row acc w w' r :
  ingest_row file row acc w = (w', r) →
  is_Some (h5 w !! file) → is_Some (h5 w' !! file).
Proof.
  destruct acc as [added updates]. rewrite ingest_row_unfold.
  destruct (row !! "time") as [time|]; [|by intros [-> ->]%run_eq].
  cbv zeta. case_bool_decide as Hdup; [by intros [-> ->]%run_eq|].
  destruct (missing_column row AS7341_COLUMNS); [by intros [-> ->]%run_eq|].
  destruct (mapM as_float _) as [signal|]; [|by intros [-> ->]%run_eq].
  destruct (add_metadata _ _) as [w2 rm] eqn:Hmeta.
  apply add_metadata_annotates in Hmeta.
  2:{ unfold write_sample. rewrite samples_of_set_samples, lookup_insert_eq. eauto. }
  destruct Hmeta as (_ & g & g' & _ & Hs & _).
  assert (is_Some (h5 w2 !! file)) as Hex.
  { destruct (h5 w2 !! file) as [f|] eqn:Hf; [eauto|]. exfalso.
    unfold samples_of at 1 in Hs. rewrite Hf in Hs.
    apply (f_equal (λ m, m !! py_str time)) in Hs.
    by rewrite lookup_empty, lookup_insert_eq in Hs. }
  destruct rm; by intros [-> ->]%run_eq.
Qed.

Lemma add_samples_from_csv_keeps_file csv_files file data_type w w' r :
  add_samples_from_csv csv_files file data_type w = (w', r) →
  is_Some (h5 w' !! file).
Proof.
  rewrite add_samples_from_csv_unfold. intros Hrun.
  assert (is_Some (h5 (opened file w) !! file)) as Hopen.
  { unfold opened. destruct (h5 w !! file) as [f|] eqn:Hf; simpl.
    - destruct (samples_grp f); [by rewrite Hf|].
      unfold set_samples, set_h5. simpl. rewrite lookup_insert_eq. eauto.
    - unfold set_samples, set_h5. simpl. rewrite lookup_insert_eq. eauto. }
  revert Hrun Hopen.
  apply (for_each_rel (λ u u', is_Some (h5 u !! file) → is_Some (h5 u' !! file)));
    [done|by eauto|].
  intros f acc u u' r'. rewrite ingest_file_unfold. cbv zeta.
  case_bool_decide; [|by intros [-> ->]%run_eq].
  destruct (csv u !! f) as [df|]; [|by intros [-> ->]%run_eq].
  intros Hrun Hex. revert Hrun.
  change (is_Some (h5 (put_stdout ("Processing: " +:+ f) u) !! file)) in Hex.
  revert Hex. generalize (put_stdout ("Processing: " +:+ f) u). intros v Hex Hrun.
  revert Hrun Hex.
  apply (for_each_rel (λ u u', is_Some (h5 u !! file) → is_Some (h5 u' !! file)));
    [done|by eauto|].
  apply ingest_row_keeps_file.
Qed.

(** X12. After [add_samples_from_csv] on the container has returned,
    [push_updated_hdf5] with its result is never aborted: it changes
    to the repository, stages the container, commits with the message
    made of the number of inserted keys, the source label, the metadata
    flag and the inserted keys, pushes, and changes back. *)
Theorem push_after_ingestion csv_files data_type w w1 keys flag :
  add_samples_from_csv csv_files HDF5_FILE data_type w = (w1, Ok (keys, flag)) →
  push_updated_hdf5 keys data_type flag w1
  = (w1, Ok (push_calls (commit_message keys data_type flag))).
Proof.
  intros Hrun. apply add_samples_from_csv_keeps_file in Hrun.
  unfold push_updated_hdf5, mbind, M_bind, path_exists.
  by rewrite bool_decide_eq_true_2.
Qed.

(** X13. For a data type other than ["3"], ingestion followed by the
    push of its result always commits and pushes, with a message that
    reports no sample: [Added 0 samples], the label of the data type,
    [without metadata update], and [Timestamps: None]. *)
Theorem other_data_types_push_empty_commit csv_files data_type w :
  data_type ≠ "3" →
  ∃ w1,
    add_samples_from_csv csv_files HDF5_FILE data_type w = (w1, Ok ([], false)) ∧
    push_updated_hdf5 [] data_type false w1
    = (w1, Ok (push_calls
         ("Updated HDF5: Added 0 samples from " +:+ source_type data_type
          +:+ " without metadata update" +:+ nl +:+ "Timestamps: None"))).
Proof.
  intros Hty.
  destruct (other_types_run csv_files HDF5_FILE data_type (opened HDF5_FILE w) Hty)
    as (w1 & Hrun & _).
  rewrite <- add_samples_from_csv_unfold in Hrun.
  exists w1. split; [done|].
  pose proof (add_samples_from_csv_keeps_file _ _ _ _ _ _ Hrun) as Hex.
  unfold push_updated_hdf5, mbind, M_bind, path_exists.
  rewrite bool_decide_eq_true_2 by done. cbn [negb].
  unfold mret, M_ret. do 3 f_equal.
Qed.

(** ** Choosing samples in the terminal *)

Lemma chosen_nil_r timestamps : chosen timestamps [] = [].
Proof. by destruct timestamps. Qed.

Lemma chosen_cons ts timestamps (b : bool) selected :
  chosen (ts :: timestamps) (b :: selected)
  = if b then ts :: chosen timestamps selected else chosen timestamps selected.
Proof.
  unfold chosen. cbn [zip zip_with]. rewrite filter_cons. cbn [snd].
  destruct b; [by rewrite decide_True|by rewrite decide_False].
Qed.

Lemma chosen_sublist timestamps selected : sublist (chosen timestamps selected) timestamps.
Proof.
  revert selected. induction timestamps as [|ts timestamps IH]; intros [|b selected];
    try (rewrite chosen_nil_r; apply sublist_nil_l); [done|].
  rewrite chosen_cons. destruct b; [by apply sublist_skip|by apply sublist_cons].
Qed.

Lemma sublist_chosen sel timestamps :
  sublist sel timestamps →
  ∃ mask, length mask = length timestamps ∧ chosen timestamps mask = sel.
Proof.
  induction 1 as [|ts sel timestamps _ (mask & Hlen & Hmask)
                   |ts sel timestamps _ (mask & Hlen & Hmask)].
  - by exists [].
  - exists (true :: mask). rewrite chosen_cons. simpl. by rewrite Hlen, Hmask.
  - exists (false :: mask). rewrite chosen_cons. simpl. by rewrite Hlen.
Qed.

Lemma select_loop_space timestamps keys selected current :
  select_loop timestamps (Key 32 :: keys) selected current
  = match selected !! current with
    | Some b => select_loop timestamps keys (<[current := negb b]> selected) current
    | None => IndexError
    end.
Proof. done. Qed.

Lemma select_loop_enter timestamps keys selected current :
  select_loop timestamps (Key 10 :: keys) selected current
  = Returned (chosen timestamps selected).
Proof. done. Qed.

Lemma select_loop_down timestamps keys selected current :
  select_loop timestamps (Key KEY_DOWN :: keys) selected current
  = select_loop timestamps keys selected
      (if bool_decide (current < length timestamps - 1)%nat then current + 1 else current)%nat.
Proof.
  cbn [select_loop].
  change (bool_decide (KEY_DOWN = KEY_UP)) with false.
  change (bool_decide (KEY_DOWN = KEY_DOWN)) with true.
  change (bool_decide (KEY_DOWN = 32%Z)) with false.
  change (bool_decide (KEY_DOWN = 10%Z)) with false.
  cbn [andb].
  case_bool_decide; case_bool_decide; try done; lia.
Qed.

(** The state the loop keeps: one mark per key and, unless the list is
    empty, the cursor on a key. *)
Lemma select_loop_no_index_error timestamps keys selected current :
  length selected = length timestamps → (current < length timestamps)%nat →
  select_loop timestamps keys selected current ≠ IndexError.
Proof.
  revert selected current.
  induction keys as [|[key|] keys IH]; intros selected current Hlen Hcur; [done| |done].
  cbn [select_loop].
  destruct (bool_decide (key = KEY_UP) && bool_decide (0 < current)%nat);
    [apply IH; [done|lia]|].
  destruct (bool_decide (key = KEY_DOWN)
            && bool_decide (Z.of_nat current < Z.of_nat (length timestamps) - 1)%Z) eqn:E.
  { apply andb_true_iff in E as [_ E%bool_decide_eq_true]. apply IH; [done|lia]. }
  destruct (bool_decide_reflect (key = 32%Z)).
  { destruct (lookup_lt_is_Some_2 selected current) as [b ->]; [lia|].
    apply IH; [by rewrite length_insert|done]. }
  destruct (bool_decide_reflect (key = 10%Z)); [done|]. by apply IH.
Qed.

Lemma select_loop_keys_over timestamps rest pre :
  length pre + length rest = length timestamps →
  select_loop timestamps (keys_for rest) (pre ++ replicate (length rest) false)
    (length pre `min` (length timestamps - 1))
  = Returned (chosen timestamps (pre ++ rest)).
Proof.
  revert pre. induction rest as [|b rest IH]; intros pre Hlen.
  - unfold keys_for. cbn. by rewrite app_nil_r.
  - cbn [length] in Hlen.
    replace (length pre `min` (length timestamps - 1)) with (length pre) by lia.
    assert (select_loop timestamps (keys_for (b :: rest))
              (pre ++ replicate (length (b :: rest)) false) (length pre)
            = select_loop timestamps (Key KEY_DOWN :: keys_for rest)
                (pre ++ b :: replicate (length rest) false) (length pre)) as ->.
    { unfold keys_for, keys_over. cbn [mbind list_bind replicate length].
      destruct b; [|done].
      rewrite <- !app_assoc. cbn [app]. rewrite select_loop_space.
      rewrite list_lookup_middle by done. cbn [negb].
      by rewrite insert_app_r_alt, Nat.sub_diag by done. }
    rewrite select_loop_down.
    specialize (IH (pre ++ [b])). rewrite length_app in IH. cbn [length] in IH.
    rewrite <- !app_assoc in IH. cbn [app] in IH.
    rewrite <- IH by lia. f_equal. case_bool_decide; lia.
Qed.

Lemma select_samples_curses_sublist keys timestamps sel :
  select_samples_curses keys timestamps = Returned sel → sublist sel timestamps.
Proof.
  unfold select_samples_curses.
  generalize (replicate (length timestamps) false) 0%nat.
  induction keys as [|[key|] keys IH]; intros selected current; [done| |done].
  cbn [select_loop].
  destruct (_ && _); [apply IH|].
  destruct (_ && _); [apply IH|].
  destruct (bool_decide_reflect (key = 32%Z));
    [destruct (selected !! current); [apply IH|done]|].
  destruct (bool_decide_reflect (key = 10%Z)); [|apply IH].
  intros [= <-]. apply chosen_sublist.
Qed.

(** X14. The lists that [select_samples_curses] can return are exactly
    the sublists of [timestamps]: whatever is typed, a returned list
    holds keys of the list in the order of the list, and every such
    choice is returned for some keys typed (move down the list, SPACE
    on the keys wanted, ENTER). *)
Theorem selections_are_the_sublists timestamps sel :
  (∃ keys, select_samples_curses keys timestamps = Returned sel)
  ↔ sublist sel timestamps.
Proof.
  split.
  - intros [keys Hrun]. by eapply select_samples_curses_sublist.
  - intros (mask & Hlen & <-)%sublist_chosen. exists (keys_for mask).
    unfold select_samples_curses.
    pose proof (select_loop_keys_over timestamps mask []) as H.
    cbn [length app] in H. rewrite Hlen in H. by apply H.
Qed.

(** X15. [select_samples_curses] can fail with IndexError only on an
    empty list of keys, and there it does as soon as SPACE is typed:
    [selected[current]] with [selected = []]. *)
Theorem selection_index_error_iff_empty timestamps :
  (∃ keys, select_samples_curses keys timestamps = IndexError) ↔ timestamps = [].
Proof.
  split.
  - intros [keys Hrun]. destruct timestamps as [|ts timestamps]; [done|].
    exfalso. revert Hrun. apply select_loop_no_index_error.
    + by rewrite length_replicate.
    + simpl. lia.
  - intros ->. by exists [Key 32].
Qed.

(** X16. Ctrl-C before ENTER cancels the selection: on a list that is
    not empty, whatever was toggled before, [run_curses_selection]
    prints the notice and returns [None]. *)
Theorem interrupt_cancels_selection keys more timestamps :
  timestamps ≠ [] → Key 10 ∉ keys →
  run_curses_selection (keys ++ CtrlC :: more) timestamps
  = ([nl +:+ "Cancelled. Resetting terminal..."], ReturnedNone).
Proof.
  intros Hne Hkeys.
  assert (select_samples_curses (keys ++ CtrlC :: more) timestamps = KeyboardInterrupt)
    as Hrun; [|unfold run_curses_selection; by rewrite Hrun].
  unfold select_samples_curses.
  assert (length (replicate (length timestamps) false) = length timestamps) as Hlen
    by apply length_replicate.
  assert (0 < length timestamps)%nat as Hcur by (destruct timestamps; [done|simpl; lia]).
  revert Hlen Hcur. generalize (replicate (length timestamps) false) 0%nat.
  induction keys as [|[key|] keys IH]; intros selected current Hlen Hcur; [done| |done].
  assert (Key 10 ∉ keys) as Hrest by (intros ?; apply Hkeys; by right).
  assert (key ≠ 10%Z) as Hkey by (intros ->; apply Hkeys; by left).
  cbn [app select_loop].
  destruct (bool_decide (key = KEY_UP) && bool_decide (0 < current)%nat);
    [apply IH; [done|done|lia]|].
  destruct (bool_decide (key = KEY_DOWN)
            && bool_decide (Z.of_nat current < Z.of_nat (length timestamps) - 1)%Z) eqn:E.
  { apply andb_true_iff in E as [_ E%bool_decide_eq_true]. apply IH; [done|done|lia]. }
  destruct (bool_decide_reflect (key = 32%Z)).
  { destruct (lookup_lt_is_Some_2 selected current) as [b ->]; [lia|].
    apply IH; [done|by rewrite length_insert|done]. }
  rewrite bool_decide_eq_false_2 by done. by apply IH.
Qed.

(** ** The menu on the screen *)

Lemma length_substring_0 n s :
  String.length (substring 0 n s) = n `min` String.length s.
Proof.
  revert n. induction s as [|c s IH]; intros [|n]; simpl; try done.
  by rewrite IH.
Qed.

Lemma length_py_slice_to s n :
  (0 ≤ n)%Z → (n < Z.of_nat (String.length s))%Z →
  Z.of_nat (String.length (py_slice_to s n)) = n.
Proof.
  intros H0 Hn. unfold py_slice_to. cbv zeta.
  destruct (Z.ltb_spec n 0); [lia|]. rewrite length_substring_0. lia.
Qed.

Lemma length_string_app s1 s2 :
  String.length (s1 +:+ s2) = (String.length s1 + String.length s2)%nat.
Proof. induction s1 as [|c s1 IH]; simpl; [done|by rewrite IH]. Qed.

Lemma menu_rows_from_facts i height width timestamps selected current :
  (6 ≤ width)%Z →
  length (menu_rows_from i height width timestamps selected current)
  = length timestamps `min` Z.to_nat (height - 2 - Z.of_nat i) ∧
  Forall (λ row, (Z.of_nat i + 2 ≤ row_y row < height)%Z ∧
                 (Z.of_nat (String.length (row_text row)) ≤ width - 2)%Z)
    (menu_rows_from i height width timestamps selected current).
Proof.
  intros Hw. revert i. induction timestamps as [|ts timestamps IH]; intros i.
  - by split.
  - cbn [menu_rows_from]. case_bool_decide as Hh.
    + split; [cbn [length]; lia|done].
    + destruct (IH (S i)) as [Hlen Hall]. split.
      * cbn [length]. rewrite Hlen. lia.
      * constructor.
        -- cbn [row_y row_text]. split; [lia|].
           rewrite length_string_app.
           assert (String.length (if default false (selected !! i)
                                  then "[X] " else "[ ] ") = 4%nat) as ->
             by (by destruct (default false (selected !! i))).
           case_bool_decide as Hlong.
           ++ rewrite Nat2Z.inj_add, length_py_slice_to by lia. lia.
           ++ lia.
        -- eapply list.Forall_impl; [exact Hall|]. intros row [? ?]. split; lia.
Qed.

(** X17. On a screen at least six columns wide the menu stays on the
    screen: [select_samples_curses] draws one line for each of the
    first [height - 2] keys and no more, each on a row from 2 up to
    [height - 1], and each at most [width - 2] characters long. *)
Theorem menu_stays_on_screen height width timestamps selected current :
  (6 ≤ width)%Z →
  length (menu_rows height width timestamps selected current)
  = length timestamps `min` Z.to_nat (height - 2) ∧
  ∀ row, row ∈ menu_rows height width timestamps selected current →
    (2 ≤ row_y row < height)%Z ∧
    (Z.of_nat (String.length (row_text row)) ≤ width - 2)%Z.
Proof.
  intros Hw.
  destruct (menu_rows_from_facts 0 height width timestamps selected current Hw)
    as [Hlen Hall].
  split.
  - unfold menu_rows. rewrite Hlen. f_equal. lia.
  - intros row Hrow. by apply (proj1 (list.Forall_forall _ _) Hall row Hrow).
Qed.

Lemma menu_rows_from_highlight i height width timestamps selected current :
  (∃ row, row ∈ menu_rows_from i height width timestamps selected current
          ∧ row_reverse row = true)
  ↔ (i ≤ current < i + length timestamps)%nat ∧ (Z.of_nat current + 2 < height)%Z.
Proof.
  revert i. induction timestamps as [|ts timestamps IH]; intros i.
  - cbn [menu_rows_from length]. split.
    + by intros (row & ?%elem_of_nil & _).
    + lia.
  - cbn [menu_rows_from length]. case_bool_decide as Hh.
    + split; [by intros (row & ?%elem_of_nil & _)|lia].
    + split.
      * intros (row & [->|Hin]%elem_of_cons & Hrev).
        -- cbn [row_reverse] in Hrev. apply bool_decide_eq_true in Hrev. lia.
        -- destruct (proj1 (IH (S i))) as [? ?]; [by exists row|]. lia.
      * intros [Hi Hc]. destruct (decide (i = current)) as [->|Hne].
        -- eexists. split; [by left|]. cbn [row_reverse]. by apply bool_decide_eq_true.
        -- destruct (proj2 (IH (S i))) as (row & Hin & Hrev); [lia|].
           exists row. split; [by right|done].
Qed.

(** X18. The menu does not scroll: the line under the cursor is drawn
    (in reverse video) exactly when the cursor is on one of the first
    [height - 2] keys; further down, to which KEY_DOWN leads on a longer
    list, no drawn line is highlighted. *)
Theorem menu_highlights_visible_cursor_only height width timestamps selected current :
  (∃ row, row ∈ menu_rows height width timestamps selected current
          ∧ row_reverse row = true)
  ↔ (current < length timestamps)%nat ∧ (Z.of_nat current + 2 < height)%Z.
Proof.
  unfold menu_rows. rewrite menu_rows_from_highlight. cbn [Nat.add]. lia.
Qed.

(** ** The legend *)

Lemma toggle_from_miss i artist handles leg_lines :
  (artist < i)%nat → toggle_from i artist handles leg_lines = (handles, leg_lines, 0%nat).
Proof.
  revert i leg_lines. induction handles as [|line handles IH]; intros i [|l leg_lines] Hi;
    try done.
  cbn [toggle_from]. rewrite IH by lia. by rewrite bool_decide_eq_false_2 by lia.
Qed.

Lemma toggle_from_hit i artist handles leg_lines (visible : bool) :
  length leg_lines = length handles → (i ≤ artist)%nat →
  handles !! (artist - i)%nat = Some visible →
  toggle_from i artist handles leg_lines
  = (<[(artist - i)%nat := negb visible]> handles,
     <[(artist - i)%nat := if negb visible then 1%Q else (3 # 10)%Q]> leg_lines,
     1%nat).
Proof.
  revert i leg_lines. induction handles as [|line handles IH]; intros i [|l leg_lines];
    try done.
  intros [= Hlen] Hi Hlook. cbn [toggle_from].
  destruct (decide (artist = i)) as [->|Hne].
  - rewrite Nat.sub_diag in *. injection Hlook as ->.
    rewrite toggle_from_miss by lia. by rewrite bool_decide_eq_true_2.
  - rewrite bool_decide_eq_false_2 by done.
    replace (artist - i)%nat with (S (artist - S i)) in * by lia.
    cbn [lookup list_lookup] in Hlook. by rewrite (IH (S i) leg_lines Hlen) by (done || lia).
Qed.

(** X19. A click on a legend entry changes that entry only: the line
    it stands for becomes hidden if it was shown and shown if it was
    hidden, the entry is drawn at alpha 1 for a shown line and 0.3 for
    a hidden one, every other line and entry is as before, and the
    figure is redrawn once. *)
Theorem toggle_visibility_clicked_entry artist handles leg_lines (visible : bool) :
  length leg_lines = length handles → handles !! artist = Some visible →
  toggle_visibility artist handles leg_lines
  = (<[artist := negb visible]> handles,
     <[artist := if negb visible then 1%Q else (3 # 10)%Q]> leg_lines,
     1%nat).
Proof.
  intros Hlen Hlook. unfold toggle_visibility.
  rewrite (toggle_from_hit 0 artist handles leg_lines visible); rewrite ?Nat.sub_0_r; try done.
  lia.
Qed.

(** ** What the figure shows *)


(** X21. Listing, choosing and plotting fit together: every key of a
    selection made from the list that [list_samples] returned is
    stored, so [plot_samples] on a selection that is not empty prints
    neither a warning nor [No database found.], and when it shows a
    figure the figure has one line per selected key, in the order of
    the selection. *)
Theorem selection_from_listing_plots_whole file w w1 available keys sel :
  list_samples file w = (w1, Ok available) →
  select_samples_curses keys available = Returned sel →
  sel ≠ [] →
  (∀ k, k ∈ sel → is_Some (samples_of w1 file !! k)) ∧
  ∃ r, plot_samples file sel w1 = (w1, r) ∧
       ∀ figure, r = Ok figure →
         ∃ lines, figure = Some lines ∧ label <$> lines = sel.
Proof.
  intros Hlist Hsel Hne.
  assert (sublist sel available) as Hsub
    by (by eapply select_samples_curses_sublist).
  rewrite list_samples_unfold in Hlist.
  destruct (h5 w !! file) as [f|] eqn:Hf.
  2:{ injection Hlist as <- <-. apply sublist_nil_r in Hsub. done. }
  destruct (samples_grp f) as [m|] eqn:Hm.
  2:{ injection Hlist as <- <-. apply sublist_nil_r in Hsub. done. }
  injection Hlist as <- <-.
  assert (∀ k, k ∈ sel → is_Some (samples_of w file !! k)) as Hstored.
  { intros k Hk. unfold samples_of. rewrite Hf. simpl. rewrite Hm. simpl.
    apply (elem_of_sublist _ _ _ Hk) in Hsub as Hin'. clear Hk. rename Hin' into Hk.
    apply list_elem_of_fmap in Hk as ([k' g] & -> & Hin).
    apply elem_of_map_to_list in Hin. simpl. eauto. }
  split; [done|].
  rewrite plot_samples_unfold, Hf.
  destruct (plot_loop_stored file sel [] w Hstored) as (r & -> & Hr).
  destruct r as [lines|e].
  - eexists. split; [done|]. intros figure [= <-]. exists lines. split; [done|].
    by apply Hr.
  - eexists. split; [done|]. by intros figure.
Qed.

(** ** The properties on the example data *)

Lemma ingested_data_reads_back_witness :
  add_samples_from_csv ["a.csv"] "db.h5" "3" scenario
  = (ingested, Ok (["T1"; "T3"], true)) ∧
  "T3" ∈ ["T1"; "T3"] ∧
  ∃ row signal,
    first_row "T3" (batch_rows (csv scenario) ["a.csv"]) = Some row ∧
    row_signal row = Some signal ∧
    read_dataset (mkRef "db.h5" ("samples/" +:+ "T3")) "Wavelengths" ingested
    = (ingested, Ok (IntData AS7341_WAVELENGTHS)) ∧
    read_dataset (mkRef "db.h5" ("samples/" +:+ "T3")) "Intensities" ingested
    = (ingested, Ok (FloatData signal)).
Proof.
  assert ("T3" ∈ ["T1"; "T3"]) as Hk by (right; left).
  split_and!; [exact scenario_run|exact Hk|].
  exact (ingested_data_reads_back _ _ _ _ _ _ _ scenario_run Hk).
Defined.

Lemma non_numeric_cell_aborts_batch_witness :
  csv (opened "db.h5" garbled) !! "a.csv" = Some ([] ++ garbled_row :: []) ∧
  row_key garbled_row = Some "T1" ∧
  link_name "T1" ∧
  samples_of (put_stdout ("Processing: " +:+ "a.csv") (opened "db.h5" garbled)) "db.h5"
    !! "T1" = None ∧
  missing_column garbled_row AS7341_COLUMNS = None ∧
  row_signal garbled_row = None ∧
  ∃ message,
    add_samples_from_csv ([] ++ "a.csv" :: []) "db.h5" "3" garbled
    = (put_stdout ("Processing: " +:+ "a.csv") (opened "db.h5" garbled),
       Raise (ValueError message)).
Proof.
  assert (csv (opened "db.h5" garbled) !! "a.csv" = Some ([] ++ garbled_row :: []))
    as Hcsv by (vm_compute; reflexivity).
  assert (row_key garbled_row = Some "T1") as Hkey by (vm_compute; reflexivity).
  assert (link_name "T1") as Hname by (apply (bool_decide_unpack _); vm_compute; exact I).
  assert (samples_of (put_stdout ("Processing: " +:+ "a.csv") (opened "db.h5" garbled))
            "db.h5" !! "T1" = None) as Hnew by (vm_compute; reflexivity).
  assert (missing_column garbled_row AS7341_COLUMNS = None) as Hcols
    by (vm_compute; reflexivity).
  assert (row_signal garbled_row = None) as Hsig by (vm_compute; reflexivity).
  split_and!; [done..|].
  exact (non_numeric_cell_aborts_batch [] "a.csv" [] [] garbled_row [] "db.h5" garbled
           _ _ _ _ "T1" eq_refl Hcsv eq_refl Hkey Hname Hnew Hcols Hsig).
Defined.

Lemma missing_csv_file_aborts_batch_witness :
  for_each ["a.csv"] (ingest_file "db.h5" "3") ([], false) (opened "db.h5" first_run)
  = ((for_each ["a.csv"] (ingest_file "db.h5" "3") ([], false)
        (opened "db.h5" first_run)).1, Ok (["T1"], false)) ∧
  csv (for_each ["a.csv"] (ingest_file "db.h5" "3") ([], false)
         (opened "db.h5" first_run)).1 !! "b.csv" = None ∧
  add_samples_from_csv (["a.csv"] ++ "b.csv" :: []) "db.h5" "3" first_run
  = (put_stdout ("Processing: " +:+ "b.csv")
       (for_each ["a.csv"] (ingest_file "db.h5" "3") ([], false)
          (opened "db.h5" first_run)).1,
     Raise (FileNotFoundError "b.csv")).
Proof.
  set (w0 := (for_each ["a.csv"] (ingest_file "db.h5" "3") ([], false)
                (opened "db.h5" first_run)).1).
  assert (for_each ["a.csv"] (ingest_file "db.h5" "3") ([], false)
            (opened "db.h5" first_run) = (w0, Ok (["T1"], false))) as Hfiles
    by (vm_compute; reflexivity).
  assert (csv w0 !! "b.csv" = None) as Hcsv by (vm_compute; reflexivity).
  split_and!; [done..|].
  exact (missing_csv_file_aborts_batch ["a.csv"] "b.csv" [] "db.h5" first_run
           w0 _ Hfiles Hcsv).
Defined.


Lemma relisted_files_insert_nothing_witness :
  add_samples_from_csv ["a.csv"] "db.h5" "3" scenario
  = (ingested, Ok (["T1"; "T3"], true)) ∧
  (∀ f, f ∈ ["a.csv"] → f ∈ ["a.csv"]) ∧
  ∃ w2,
    add_samples_from_csv (["a.csv"] ++ ["a.csv"]) "db.h5" "3" scenario
    = (w2, Ok (["T1"; "T3"], true)) ∧
    h5 w2 = h5 ingested ∧ stdin w2 = stdin ingested.
Proof.
  assert (∀ f : string, f ∈ ["a.csv"] → f ∈ ["a.csv"]) as Hsub by (intros f Hf; exact Hf).
  split_and!; [exact scenario_run|exact Hsub|].
  exact (relisted_files_insert_nothing ["a.csv"] ["a.csv"] "db.h5" scenario ingested
           _ _ scenario_run Hsub).
Defined.

Lemma listing_after_ingestion_witness :
  batch_link_names (csv scenario) ["a.csv"] ∧
  add_samples_from_csv ["a.csv"] "db.h5" "3" scenario
  = (ingested, Ok (["T1"; "T3"], true)) ∧
  ∃ v v1 before after,
    list_samples "db.h5" scenario = (v, Ok before) ∧
    list_samples "db.h5" ingested = (v1, Ok after) ∧
    after ≡ₚ before ++ ["T1"; "T3"].
Proof.
  split_and!; [exact scenario_link_names|exact scenario_run|].
  exact (listing_after_ingestion _ _ _ _ _ _ scenario_link_names scenario_run).
Defined.

Lemma add_metadata_changes_attributes_only_witness :
  is_Some (samples_of accept_then_stop "db.h5" !! "T1") ∧
  add_metadata (mkRef "db.h5" ("/samples/" +:+ "T1")) accept_then_stop
  = ((add_metadata (mkRef "db.h5" ("/samples/" +:+ "T1")) accept_then_stop).1, Ok true) ∧
  csv (add_metadata (mkRef "db.h5" ("/samples/" +:+ "T1")) accept_then_stop).1
  = csv accept_then_stop ∧
  (∀ k', k' ≠ "T1" →
     samples_of (add_metadata (mkRef "db.h5" ("/samples/" +:+ "T1")) accept_then_stop).1
       "db.h5" !! k'
     = samples_of accept_then_stop "db.h5" !! k') ∧
  ∃ g g', samples_of accept_then_stop "db.h5" !! "T1" = Some g ∧
          samples_of (add_metadata (mkRef "db.h5" ("/samples/" +:+ "T1"))
                        accept_then_stop).1 "db.h5" !! "T1" = Some g' ∧
          datasets g' = datasets g ∧
          dom (attrs g) ⊆ dom (attrs g').
Proof.
  assert (is_Some (samples_of accept_then_stop "db.h5" !! "T1")) as Hk
    by (vm_compute; eauto).
  assert (add_metadata (mkRef "db.h5" ("/samples/" +:+ "T1")) accept_then_stop
          = ((add_metadata (mkRef "db.h5" ("/samples/" +:+ "T1")) accept_then_stop).1,
             Ok true)) as Hrun by (vm_compute; reflexivity).
  split_and!; [exact Hk|exact Hrun|..];
    destruct (add_metadata_changes_attributes_only _ _ _ _ _ Hk Hrun) as (? & ? & ?);
    done.
Defined.

Lemma add_metadata_writes_entered_pairs_witness :
  samples_of enters_pair "db.h5" !! "T1" = Some (core_group "T1" (replicate 10 1%Q)) ∧
  stdin enters_pair = " Y " :: pair_lines [("milk ", " cow")] ++ "" :: ["later"] ∧
  PyStr.lower (PyStr.strip " Y ") = "y" ∧
  Forall (λ p : string * string, PyStr.strip p.1 ≠ "") [("milk ", " cow")] ∧
  PyStr.strip "" = "" ∧
  ∃ w', add_metadata (mkRef "db.h5" ("/samples/" +:+ "T1")) enters_pair = (w', Ok true) ∧
        stdin w' = ["later"] ∧
        samples_of w' "db.h5"
        = <["T1" := mkGroup (datasets (core_group "T1" (replicate 10 1%Q)))
                      (enter_pairs [("milk ", " cow")]
                         (attrs (core_group "T1" (replicate 10 1%Q))))]>
            (samples_of enters_pair "db.h5").
Proof.
  assert (samples_of enters_pair "db.h5" !! "T1"
          = Some (core_group "T1" (replicate 10 1%Q))) as Hg by (vm_compute; reflexivity).
  assert (stdin enters_pair = " Y " :: pair_lines [("milk ", " cow")] ++ "" :: ["later"])
    as Hin by reflexivity.
  assert (PyStr.lower (PyStr.strip " Y ") = "y") as Hyes by (vm_compute; reflexivity).
  assert (Forall (λ p : string * string, PyStr.strip p.1 ≠ "") [("milk ", " cow")])
    as Hkeys by (constructor; [vm_compute; discriminate|constructor]).
  assert (PyStr.strip "" = "") as Hstop by (vm_compute; reflexivity).
  split_and!; [done..|].
  exact (add_metadata_writes_entered_pairs "db.h5" "T1" enters_pair _ " Y "
           [("milk ", " cow")] "" ["later"] Hg Hin Hyes Hkeys Hstop).
Defined.

Lemma view_after_ingestion_witness :
  (∀ k g, samples_of scenario "db.h5" !! k = Some g → is_Some (attrs g !! "Timestamp")) ∧
  batch_link_names (csv scenario) ["a.csv"] ∧
  add_samples_from_csv ["a.csv"] "db.h5" "3" scenario
  = (ingested, Ok (["T1"; "T3"], true)) ∧
  ∃ w2, view_samples (λ _, "[...]") (λ _, "{...}") "db.h5" ingested = (w2, Ok tt) ∧
        h5 w2 = h5 ingested.
Proof.
  assert (∀ k g, samples_of scenario "db.h5" !! k = Some g
                 → is_Some (attrs g !! "Timestamp")) as Hts.
  { intros k g.
    change (samples_of scenario "db.h5")
      with ({[ "T2" := core_group "T2" (replicate 10 1%Q) ]} : gmap string Group).
    intros [_ <-]%lookup_singleton_Some. vm_compute. eauto. }
  split_and!; [exact Hts|exact scenario_link_names|exact scenario_run|].
  exact (view_after_ingestion _ _ _ _ _ _ _ _ Hts scenario_link_names scenario_run).
Defined.

Lemma push_after_ingestion_witness :
  add_samples_from_csv ["a.csv"] HDF5_FILE "3" first_run
  = ((add_samples_from_csv ["a.csv"] HDF5_FILE "3" first_run).1, Ok (["T1"], false)) ∧
  push_updated_hdf5 ["T1"] "3" false
    (add_samples_from_csv ["a.csv"] HDF5_FILE "3" first_run).1
  = ((add_samples_from_csv ["a.csv"] HDF5_FILE "3" first_run).1,
     Ok (push_calls (commit_message ["T1"] "3" false))).
Proof.
  assert (add_samples_from_csv ["a.csv"] HDF5_FILE "3" first_run
          = ((add_samples_from_csv ["a.csv"] HDF5_FILE "3" first_run).1,
             Ok (["T1"], false))) as Hrun by (vm_compute; reflexivity).
  split; [exact Hrun|].
  exact (push_after_ingestion _ _ _ _ _ _ Hrun).
Defined.

Lemma other_data_types_push_empty_commit_witness :
  "1" ≠ "3" ∧
  ∃ w1,
    add_samples_from_csv ["a.csv"] HDF5_FILE "1" first_run = (w1, Ok ([], false)) ∧
    push_updated_hdf5 [] "1" false w1
    = (w1, Ok (push_calls
         ("Updated HDF5: Added 0 samples from " +:+ source_type "1"
          +:+ " without metadata update" +:+ nl +:+ "Timestamps: None"))).
Proof.
  assert ("1" ≠ "3") as Hty by done.
  split; [exact Hty|].
  exact (other_data_types_push_empty_commit ["a.csv"] "1" first_run Hty).
Defined.

Lemma interrupt_cancels_selection_witness :
  ["T1"; "T2"] ≠ [] ∧
  (Key 10 ∉ [Key 32; Key KEY_DOWN]) ∧
  run_curses_selection ([Key 32; Key KEY_DOWN] ++ CtrlC :: [Key 10]) ["T1"; "T2"]
  = ([nl +:+ "Cancelled. Resetting terminal..."], ReturnedNone).
Proof.
  assert (["T1"; "T2"] ≠ []) as Hne by done.
  assert (Key 10 ∉ [Key 32; Key KEY_DOWN]) as Hkeys
    by (intros H%list_elem_of_In; vm_compute in H; intuition discriminate).
  split_and!; [exact Hne|exact Hkeys|].
  exact (interrupt_cancels_selection _ [Key 10] _ Hne Hkeys).
Defined.

Lemma menu_stays_on_screen_witness :
  (6 ≤ 80)%Z ∧
  length (menu_rows 24 80 ["T1"; "T2"] [false; true] 0)
  = length ["T1"; "T2"] `min` Z.to_nat (24 - 2) ∧
  ∀ row, row ∈ menu_rows 24 80 ["T1"; "T2"] [false; true] 0 →
    (2 ≤ row_y row < 24)%Z ∧
    (Z.of_nat (String.length (row_text row)) ≤ 80 - 2)%Z.
Proof.
  assert (6 ≤ 80)%Z as Hw by lia.
  split; [exact Hw|].
  exact (menu_stays_on_screen 24 80 ["T1"; "T2"] [false; true] 0 Hw).
Defined.

Lemma toggle_visibility_clicked_entry_witness :
  length [1%Q; 1%Q] = length [true; true] ∧
  [true; true] !! 1%nat = Some true ∧
  toggle_visibility 1 [true; true] [1%Q; 1%Q]
  = (<[1%nat := negb true]> [true; true],
     <[1%nat := if negb true then 1%Q else (3 # 10)%Q]> [1%Q; 1%Q],
     1%nat).
Proof.
  split_and!; [reflexivity|reflexivity|].
  exact (toggle_visibility_clicked_entry 1 [true; true] [1%Q; 1%Q] true eq_refl eq_refl).
Defined.


Lemma selection_from_listing_plots_whole_witness :
  list_samples "db.h5" spectro_store = (spectro_store, Ok ["A1"]) ∧
  select_samples_curses [Key 32; Key 10] ["A1"] = Returned ["A1"] ∧
  ["A1"] ≠ [] ∧
  (∀ k, k ∈ ["A1"] → is_Some (samples_of spectro_store "db.h5" !! k)) ∧
  ∃ r, plot_samples "db.h5" ["A1"] spectro_store = (spectro_store, r) ∧
       ∀ figure, r = Ok figure →
         ∃ lines, figure = Some lines ∧ label <$> lines = ["A1"].
Proof.
  assert (list_samples "db.h5" spectro_store = (spectro_store, Ok ["A1"])) as Hlist
    by (vm_compute; reflexivity).
  assert (select_samples_curses [Key 32; Key 10] ["A1"] = Returned ["A1"]) as Hsel
    by (vm_compute; reflexivity).
  assert (["A1"] ≠ []) as Hne by done.
  split_and!; [exact Hlist|exact Hsel|exact Hne|..];
    destruct (selection_from_listing_plots_whole _ _ _ _ _ _ Hlist Hsel Hne) as [? ?];
    done.
Defined.
